(** * gpCAM: acquisition-function dispatcher and autonomous loop

    A shallow embedding of [gpcam/surrogate_model.py] and of the
    training/loop control of [gpcam/autonomous_experimenter.py].

    Conventions of the embedding.
    - Python exceptions are values of [exn]; a computation that may raise
      returns a [result].
    - A numpy value is a nested array [nd] over an abstract float type [F];
      its rank is [ndim].  The numeric library itself (numpy, scipy.stats,
      math) is an interface, [Numpy]: the program is verified for every
      implementation of it.
    - The optimizers (scipy, HGDL), the random generator and the Gaussian
      process are collaborators: records of functions.
    - Code with effects (logging, the experimenter's attributes) runs in the
      state-and-exception monad [prog]; the state survives an exception, as
      a Python side effect does.
    - [logger.info] output is not recorded; [logger.warning] and
      [logger.error] are. *)

From Stdlib Require Import ZArith List String Bool Lia QArith Qabs.
Import ListNotations.
Open Scope string_scope.
Open Scope Z_scope.

Set Implicit Arguments.

(** ** Exceptions and results *)

Inductive exn : Type :=
| PyException (msg : string)
| ValueError (msg : string)
| RuntimeError (msg : string)
| TypeError (msg : string)
| KeyError (key : string)
| IndexError (msg : string)
| AttributeError (name : string)
| UnboundLocalError (name : string)
| NameError (name : string)
| CollaboratorError (tag : string).

Inductive result (A : Type) : Type :=
| Ok (a : A)
| Raise (e : exn).

Arguments Ok {A} a.
Arguments Raise {A} e.

Definition rbind {A B} (c : result A) (k : A -> result B) : result B :=
  match c with
  | Ok a => k a
  | Raise e => Raise e
  end.

Notation "'let?' x ':=' c 'in' k" := (rbind c (fun x => k))
  (at level 10, x name, c at level 100, k at level 200).

Definition is_ok {A} (c : result A) : bool :=
  match c with Ok _ => true | Raise _ => false end.

(** ** State and exceptions *)

Definition prog (S A : Type) : Type := S -> result A * S.

Definition ret {S A} (a : A) : prog S A := fun s => (Ok a, s).

Definition raise {S A} (e : exn) : prog S A := fun s => (Raise e, s).

Definition bind {S A B} (c : prog S A) (k : A -> prog S B) : prog S B :=
  fun s => match c s with
           | (Ok a, s') => k a s'
           | (Raise e, s') => (Raise e, s')
           end.

Definition lift {S A} (c : result A) : prog S A := fun s => (c, s).

Definition get {S} : prog S S := fun s => (Ok s, s).

Definition modify {S} (f : S -> S) : prog S unit := fun s => (Ok tt, f s).

Notation "x <- c ;; k" := (bind c (fun x => k))
  (at level 61, c at next level, right associativity).
Notation "c ;;; k" := (bind c (fun _ => k))
  (at level 61, right associativity).

(** ** numpy values *)

#[warnings="-register-all"]
Inductive nd (F : Type) : Type :=
| Sc (v : F)
| Ar (items : list (nd F)).

Arguments Sc {F} v.
Arguments Ar {F} items.

(** [np.ndim]. *)
Fixpoint ndim {F} (a : nd F) : Z :=
  match a with
  | Sc _ => 0
  | Ar [] => 1
  | Ar (x :: _) => 1 + ndim x
  end.

(** [len(a)]: a 0-d value has no length. *)
Definition nd_len {F} (a : nd F) : result Z :=
  match a with
  | Sc _ => Raise (TypeError "len() of unsized object")
  | Ar l => Ok (Z.of_nat (List.length l))
  end.

(** [list(a)], iteration over the first axis. *)
Definition py_list {F} (a : nd F) : result (list (nd F)) :=
  match a with
  | Sc _ => Raise (TypeError "iteration over a 0-d array")
  | Ar l => Ok l
  end.

(** [l[i]] on a Python sequence, negative indices counted from the end. *)
Definition list_get {A} (l : list A) (i : Z) : result A :=
  let n := Z.of_nat (List.length l) in
  let j := if i <? 0 then i + n else i in
  if (j <? 0) || (n <=? j) then Raise (IndexError "index out of range")
  else match nth_error l (Z.to_nat j) with
       | Some a => Ok a
       | None => Raise (IndexError "index out of range")
       end.

(** [a[i]] on a numpy value. *)
Definition nd_get {F} (a : nd F) (i : Z) : result (nd F) :=
  match a with
  | Sc _ => Raise (IndexError "invalid index to scalar variable")
  | Ar l => list_get l i
  end.

(** [np.array([a])]: one more leading axis of length 1. *)
Definition np_array1 {F} (a : nd F) : nd F := Ar [a].

(** [l[0:stop]] on a Python list. *)
Definition slice_to {A} (l : list A) (stop : Z) : list A :=
  let n := Z.of_nat (List.length l) in
  let s := if stop <? 0 then Z.max 0 (stop + n) else Z.min stop n in
  firstn (Z.to_nat s) l.

(** ** The numeric library *)

Class Numpy (F : Type) : Type := {
  (** a float literal of the source text *)
  lit : Q -> F;
  (** truth value of a float, [if f:] *)
  float_truth : F -> bool;
  (** truth value of an array, [if a:]; ambiguous arrays raise *)
  np_truth : nd F -> result bool;
  (** unary [-a], [abs(a)], [np.sqrt(a)] *)
  np_neg : nd F -> nd F;
  np_abs : nd F -> nd F;
  np_sqrt : nd F -> nd F;
  (** binary operators with broadcasting; a shape mismatch raises *)
  np_add : nd F -> nd F -> result (nd F);
  np_sub : nd F -> nd F -> result (nd F);
  np_mul : nd F -> nd F -> result (nd F);
  np_div : nd F -> nd F -> result (nd F);
  (** [np.max(a)] *)
  np_max : nd F -> result (nd F);
  (** [np.linalg.norm(a, axis = 1)], [np.sum(a, axis = 1)] *)
  np_linalg_norm_axis1 : nd F -> result (nd F);
  np_sum_axis1 : nd F -> result (nd F);
  (** [a.reshape(r, c)] *)
  np_reshape : nd F -> Z -> Z -> result (nd F);
  (** [a[a < 0.] = 0.] *)
  np_zero_negative : nd F -> result (nd F);
  (** [a.T], [a[:, j]] *)
  np_T : nd F -> nd F;
  np_column : nd F -> Z -> result (nd F);
  (** [scipy.stats.norm.cdf], [norm.pdf], [math.erf] *)
  norm_cdf : nd F -> nd F;
  norm_pdf : nd F -> nd F;
  math_erf : nd F -> result (nd F)
}.

(** [range(lo, hi)]. *)
Definition py_range (lo hi : Z) : list Z :=
  map (fun k => lo + Z.of_nat k) (seq 0 (Z.to_nat (hi - lo))).

(** ** Dynamically typed arguments

    The arguments [cost_function], [cost_function_parameters],
    [number_of_maxima_sought] and [args] are passed along untyped.
    [pydata] are the plain objects among them, [pyobj] adds the callables
    with the calling convention of a cost function,
    [cost_function(origin, x, cost_function_parameters)]. *)

Inductive pydata (F : Type) : Type :=
| PyNone
| PyInt (n : Z)
| PyDict (d : list (string * nd F)).

Arguments PyNone {F}.
Arguments PyInt {F} n.
Arguments PyDict {F} d.

Inductive pyobj (F : Type) : Type :=
| Data (d : pydata F)
| Callable (f : nd F -> nd F -> pydata F -> result (nd F)).

Arguments Data {F} d.
Arguments Callable {F} f.

Definition is_none {F} (o : pyobj F) : bool :=
  match o with Data PyNone => true | _ => false end.

(** [o(origin, x, params)]. *)
Definition py_call {F} (o : pyobj F) (origin x : nd F) (params : pydata F)
  : result (nd F) :=
  match o with
  | Callable f => f origin x params
  | Data _ => Raise (TypeError "object is not callable")
  end.

(** An argument used where numpy wants an integer. *)
Definition as_int {F} (o : pyobj F) : result Z :=
  match o with
  | Data (PyInt n) => Ok n
  | _ => Raise (TypeError "object cannot be interpreted as an integer")
  end.

Fixpoint assoc {A} (k : string) (d : list (string * A)) : option A :=
  match d with
  | [] => None
  | (k', v) :: d' => if String.eqb k k' then Some v else assoc k d'
  end.

(** [args[key]]. *)
Definition subscript {F} (args : pydata F) (key : string) : result (nd F) :=
  match args with
  | PyDict d => match assoc key d with
                | Some v => Ok v
                | None => Raise (KeyError key)
                end
  | _ => Raise (TypeError "object is not subscriptable")
  end.

(** ** The Gaussian process, as the evaluator uses it

    Each query returns the entry of the answer that the evaluator reads
    (["f(x)"], ["v(x)"], ["df/dx"], ["RIE"], ["total correlation"]). *)

Record GP (F : Type) : Type := {
  posterior_mean : nd F -> option (nd F) -> result (nd F);
  posterior_covariance : nd F -> option (nd F) -> bool -> result (nd F);
  posterior_mean_grad : nd F -> option (nd F) -> result (nd F);
  gp_relative_information_entropy : nd F -> option (nd F) -> result (nd F);
  gp_relative_information_entropy_set : nd F -> option (nd F) -> result (nd F);
  gp_total_correlation : nd F -> option (nd F) -> result (nd F);
  y_data : nd F
}.

(** The [acquisition_function] argument: a kind string, a user callable
    [f(x, gp)], or [None]. *)
Inductive acquisition (F : Type) : Type :=
| AcqNone
| AcqKind (kind : string)
| AcqCallable (f : nd F -> GP F -> result (nd F)).

Arguments AcqNone {F}.
Arguments AcqKind {F} kind.
Arguments AcqCallable {F} f.

(** [acquisition_function == s] *)
Definition acq_eq {F} (a : acquisition F) (s : string) : bool :=
  match a with
  | AcqKind k => String.eqb k s
  | _ => false
  end.

Definition callable {F} (a : acquisition F) : bool :=
  match a with AcqCallable _ => true | _ => false end.

(** * surrogate_model.py *)

Section Evaluator.

Context {F : Type} {NP : Numpy F}.

Definition no_valid_string : exn :=
  PyException "No valid acquisition function string provided.".

(** The loop of the ["target probability"] kind, over [range(len(x))]:
    [result[i] = 0.5 * (math.erf((b-mean[i])/np.sqrt(2.*cov[i]))
                        - math.erf((a-mean[i])/np.sqrt(2.*cov[i])))]. *)
Fixpoint target_probability_loop (a b mean cov : nd F) (idx : list Z)
  : result (list (nd F)) :=
  match idx with
  | [] => Ok []
  | i :: idx' =>
      let? mi := nd_get mean i in
      let? db := np_sub b mi in
      let? ci := nd_get cov i in
      let? c2 := np_mul (Sc (lit 2)) ci in
      let? qb := np_div db (np_sqrt c2) in
      let? eb := math_erf qb in
      let? da := np_sub a mi in
      let? qa := np_div da (np_sqrt c2) in
      let? ea := math_erf qa in
      let? diff := np_sub eb ea in
      let? r := np_mul (Sc (lit 0.5)) diff in
      let? rest := target_probability_loop a b mean cov idx' in
      Ok (r :: rest)
  end.

Definition evaluate_gp_acquisition_function
    (x : nd F) (acquisition_function : acquisition F) (gp : GP F)
    (number_of_maxima_sought : pyobj F) (x_out : option (nd F))
    (args : pydata F) : result (nd F) :=
  match x_out with
  | None =>
      if acq_eq acquisition_function "variance" then
        posterior_covariance gp x x_out true
      else if acq_eq acquisition_function "relative information entropy" then
        let? rie := gp_relative_information_entropy gp x x_out in
        Ok (Ar [np_neg rie])
      else if acq_eq acquisition_function "relative information entropy set" then
        let? rie := gp_relative_information_entropy_set gp x x_out in
        Ok (np_neg rie)
      else if acq_eq acquisition_function "ucb" then
        let? m := posterior_mean gp x x_out in
        let? v := posterior_covariance gp x x_out true in
        let? s := np_mul (Sc (lit 3)) (np_sqrt v) in
        np_add m s
      else if acq_eq acquisition_function "lcb" then
        let? m := posterior_mean gp x x_out in
        let? v := posterior_covariance gp x x_out true in
        let? s := np_mul (Sc (lit 3)) (np_sqrt v) in
        let? d := np_sub m s in
        Ok (np_neg d)
      else if acq_eq acquisition_function "maximum" then
        posterior_mean gp x x_out
      else if acq_eq acquisition_function "gradient" then
        let? mean_grad := posterior_mean_grad gp x x_out in
        let? v := posterior_covariance gp x x_out true in
        let std := np_sqrt v in
        let? n := np_linalg_norm_axis1 mean_grad in
        np_mul n std
      else if acq_eq acquisition_function "minimum" then
        let? res := posterior_mean gp x x_out in
        Ok (np_neg res)
      else if acq_eq acquisition_function "probability of improvement" then
        let? m := posterior_mean gp x x_out in
        let? v := posterior_covariance gp x x_out true in
        let std := np_sqrt v in
        let? last_best := np_max (y_data gp) in
        let? num := np_sub m last_best in
        let? den := np_add std (Sc (lit (1 # 1000000000))) in
        let? q := np_div num den in
        Ok (norm_cdf q)
      else if acq_eq acquisition_function "total correlation" then
        let? tc := gp_total_correlation gp x x_out in
        Ok (np_neg (Ar [tc]))
      else if acq_eq acquisition_function "expected improvement" then
        let? m := posterior_mean gp x x_out in
        let? v := posterior_covariance gp x x_out true in
        let std := np_sqrt v in
        let? last_best := np_max (y_data gp) in
        let? a0 := np_sub m last_best in
        let? a := np_zero_negative a0 in
        let? gamma := np_div a std in
        let pdf := norm_pdf gamma in
        let cdf := norm_cdf gamma in
        let? gc := np_mul gamma cdf in
        let? s := np_add gc pdf in
        np_mul std s
      else if acq_eq acquisition_function "target probability" then
        let? a := subscript args "a" in
        let? b := subscript args "b" in
        let? mean := posterior_mean gp x x_out in
        let? cov := posterior_covariance gp x x_out false in
        let? n := nd_len x in
        let? r := target_probability_loop a b mean cov (py_range 0 n) in
        Ok (Ar r)
      else Raise no_valid_string
  | Some xo =>
      if acq_eq acquisition_function "variance" then
        let? res := posterior_covariance gp x x_out true in
        let? r := nd_len x in
        let? c := nd_len xo in
        let? res' := np_reshape res r c in
        np_sum_axis1 res'
      else if acq_eq acquisition_function "relative information entropy" then
        let? c := nd_len xo in
        let? n := as_int number_of_maxima_sought in
        let? x' := np_reshape x n c in
        let? rie := gp_relative_information_entropy gp x' x_out in
        Ok (Ar [np_neg rie])
      else if acq_eq acquisition_function "relative information entropy set" then
        let? rie := gp_relative_information_entropy_set gp x x_out in
        let? r := nd_len x in
        let? c := nd_len xo in
        let? res' := np_reshape (np_neg rie) r c in
        np_sum_axis1 res'
      else if acq_eq acquisition_function "total correlation" then
        let? c := nd_len xo in
        let? n := as_int number_of_maxima_sought in
        let? x' := np_reshape x n c in
        let? tc := gp_total_correlation gp x' x_out in
        Ok (np_neg (Ar [tc]))
      else Raise no_valid_string
  end.

(** [if np.ndim(x) == 1: x = np.array([x])] *)
Definition promote (x : nd F) : nd F :=
  if ndim x =? 1 then np_array1 x else x.

Definition evaluate_acquisition_function
    (x : nd F) (gp : GP F) (acquisition_function : acquisition F)
    (origin : option (nd F)) (number_of_maxima_sought : pyobj F)
    (cost_function : pyobj F) (cost_function_parameters : pydata F)
    (x_out : option (nd F)) (args : pydata F) : result (nd F) :=
  let x := promote x in
  let? cost_eval :=
    match origin with
    | Some o =>
        if negb (is_none cost_function)
        then py_call cost_function o x cost_function_parameters
        else Ok (Sc (lit 1))
    | None => Ok (Sc (lit 1))
    end in
  match acquisition_function with
  | AcqCallable f =>
      let? a := f x gp in
      np_div (np_neg a) cost_eval
  | _ =>
      let? obj_eval :=
        evaluate_gp_acquisition_function x acquisition_function gp
          number_of_maxima_sought x_out args in
      np_div (np_neg obj_eval) cost_eval
  end.

End Evaluator.

(** ** Collaborators of the dispatcher *)

Definition client : Type := nat.

Inductive constraint : Type := Constraint (id : nat).

Inductive log_entry : Type :=
| Warning (msg : string)
| Error (msg : string).

Definition log (e : log_entry) : prog (list log_entry) unit :=
  fun l => (Ok tt, (l ++ [e])%list).

(** The result of [scipy.optimize.minimize] and of
    [scipy.optimize.differential_evolution]: the entries ["x"], ["fun"] and
    ["success"]. *)
Record OptimizeResult (F : Type) : Type := {
  res_x : nd F;
  res_fun : nd F;
  res_success : bool
}.

(** An entry of [HGDL.get_final()]: the keys ["x"] and ["f(x)"]. *)
Record hgdl_entry (F : Type) : Type := {
  entry_x : nd F;
  entry_fx : nd F
}.

(** An [HGDL] object: [optimize(dask_client, x0, tolerance)], [get_final()]
    and [cancel_tasks()]. *)
Record HGDL_obj (F : Type) : Type := {
  hgdl_optimize : option client -> option (nd F) -> F -> result unit;
  hgdl_get_final : result (list (hgdl_entry F));
  hgdl_cancel_tasks : result unit
}.

Class Solvers (F : Type) : Type := {
  (** [devo(f, bounds, tol, x0, maxiter, popsize, polish=False, disp,
      constraints, vectorized)] *)
  devo : (nd F -> result (nd F)) -> nd F -> F -> option (nd F) -> Z -> Z ->
         bool -> list constraint -> bool -> result (OptimizeResult F);
  (** [minimize(f, x0, method="L-BFGS-B", jac, bounds, constraints, tol,
      callback=None, options={"maxiter": ...})] *)
  minimize : (nd F -> result (nd F)) -> nd F -> (nd F -> result (nd F)) ->
             nd F -> list constraint -> F -> Z -> result (OptimizeResult F);
  (** [HGDL(f, grad, bounds, num_epochs, local_optimizer="L-BFGS-B",
      constraints)] *)
  HGDL : (nd F -> result (nd F)) -> (nd F -> result (nd F)) -> nd F -> Z ->
         list constraint -> result (HGDL_obj F);
  (** the draw of [np.random.uniform(low, high, size)] in this call *)
  random_uniform : nd F -> nd F -> Z -> result (nd F)
}.

(** The keyword arguments of the dispatcher. *)
Record kwargs (F : Type) : Type := {
  optimization_method : string;
  optimization_pop_size : Z;
  optimization_max_iter : Z;
  optimization_tol : F;
  optimization_x0 : option (nd F);
  constraints : list constraint;
  cost_function : pyobj F;
  cost_function_parameters : pydata F;
  vectorized : bool;
  candidate_set : list (nd F);
  x_out : option (nd F);
  args : pydata F;
  dask_client : option client;
  info : bool
}.

(** Reading a local variable of a function body: [UnboundLocalError] when no
    assignment to it has run yet. *)
Definition read_local {A} (name : string) (v : option A) : result A :=
  match v with
  | Some a => Ok a
  | None => Raise (UnboundLocalError name)
  end.

Section Dispatcher.

Context {F : Type} {NP : Numpy F} {SV : Solvers F}.

(** [gradient(x, func)]: the body names [point] and [function], which are
    bound nowhere; its first use, [len(point)], raises. *)
Definition gradient (x : nd F) (func : nd F -> result (nd F))
  : result (nd F) :=
  Raise (NameError "point").

Definition acq_function_vectorization_wrapper
    (x : nd F) (func : nd F -> result (nd F)) (vectorized : bool)
  : result (nd F) :=
  if vectorized then func (np_T x) else func x.

(** Returns the Python lists [[list(res["x"])]] and [list([res["fun"]])]. *)
Definition differential_evolution
    (func : nd F -> result (nd F)) (bounds : nd F) (tol : F) (popsize : Z)
    (max_iter : Z) (x0 : option (nd F)) (constraints : list constraint)
    (disp : bool) (vectorized : bool)
  : result (list (list (nd F)) * list (nd F)) :=
  let? res := devo
      (fun x => acq_function_vectorization_wrapper x func vectorized)
      bounds tol x0 max_iter popsize disp constraints vectorized in
  let? xs := py_list (res_x res) in
  Ok ([xs], [res_fun res]).

Definition shape_message : string :=
  "The output of the acquisition function optimization dim (f) != 1 or dim(x) != 2. Please check your acquisition function. It should return a 1-d numpy array".

Definition hgdl_warning : string :=
  "The HGDL won't adhere to constraints for the acquisition function. Use method 'local' or 'global'".

Definition local_warning : string :=
  "local acquisition function optimization not successful, solution replaced with random point.".

Definition invalid_method : exn :=
  ValueError "Invalid acquisition function optimization method given.".

Definition answer : Type := nd F * nd F * option (HGDL_obj F).

(** The statements after the [if]/[elif] chain. *)
Definition shape_check (opti func_eval : nd F) (opt_obj : option (HGDL_obj F))
  : prog (list log_entry) answer :=
  if negb (ndim func_eval =? 1) || negb (ndim opti =? 2) then
    log (Error "f(x): ") ;;;
    log (Error "x: ") ;;;
    raise (PyException shape_message)
  else ret (opti, func_eval, opt_obj).

(** The common start of the two HGDL branches, up to [opt_obj.optimize]. *)
Definition hgdl_start
    (func grad : nd F -> result (nd F)) (bounds : nd F) (kw : kwargs F)
  : prog (list log_entry) (HGDL_obj F) :=
  (match constraints kw with
   | [] => ret tt
   | _ => log (Warning hgdl_warning)
   end) ;;;
  opt_obj <- lift (HGDL func grad bounds (optimization_max_iter kw)
                     (constraints kw)) ;;
  x0 <- lift (match optimization_x0 kw with
              | None => Ok None
              | Some a =>
                  let? t := np_truth a in
                  if t then let? r := np_reshape a 1 (-1) in Ok (Some r)
                  else Ok (Some a)
              end) ;;
  lift (hgdl_optimize opt_obj (dask_client kw) x0 (optimization_tol kw)) ;;;
  ret opt_obj.

(** The starting point of the local branch. *)
Definition local_x0 (bounds : nd F) (optimization_x0 : option (nd F))
  : result (nd F) :=
  let draw :=
    let? low := np_column bounds 0 in
    let? high := np_column bounds 1 in
    let? n := nd_len bounds in
    random_uniform low high n in
  match optimization_x0 with
  | Some a =>
      if ndim a =? 1 then Ok a
      else if ndim a =? 2 then nd_get a 0
      else draw
  | None => draw
  end.

(** How the [if]/[elif] chain over the methods is left: by a [return] of
    its own, or by falling through to the statements after it. *)
Inductive flow (A : Type) : Type :=
| Returned (a : A)
| Fell_through (a : A).

Arguments Returned {A} a.
Arguments Fell_through {A} a.

(** The [if candidate_set: ... elif ... else: raise] chain. *)
Definition method_chain
    (gp : GP F) (acquisition_function : acquisition F)
    (origin : option (nd F)) (number_of_maxima_sought : Z)
    (optimization_bounds : nd F) (kw : kwargs F)
  : prog (list log_entry) (flow answer) :=
  let bounds := optimization_bounds in
  let func := fun x =>
    evaluate_acquisition_function x gp acquisition_function origin
      (Data (PyInt number_of_maxima_sought))
      (cost_function kw) (cost_function_parameters kw)
      (x_out kw) (args kw) in
  let grad := fun x => gradient x func in
  match candidate_set kw with
  | _ :: _ =>
      (* [choices = random.choices(list(a), k=100)]: [a] is a local of this
         function, assigned only in the local branch below *)
      a <- lift (read_local "a" (@None (OptimizeResult F))) ;;
      (* [res = map(choices, func)]: [func] is not iterable *)
      raise (TypeError "'functools.partial' object is not iterable")
  | [] =>
      if String.eqb (optimization_method kw) "global" then
        r <- lift (differential_evolution func optimization_bounds
                     (optimization_tol kw) (optimization_pop_size kw)
                     (optimization_max_iter kw) (optimization_x0 kw)
                     (constraints kw) (info kw) (vectorized kw)) ;;
        let opti := Ar (map Ar (fst r)) in
        let func_eval := Ar (snd r) in
        ret (Fell_through (opti, func_eval, None))
      else if String.eqb (optimization_method kw) "hgdl" then
        opt_obj <- hgdl_start func grad bounds kw ;;
        res <- lift (hgdl_get_final opt_obj) ;;
        lift (hgdl_cancel_tasks opt_obj) ;;;
        let res := slice_to res
                     (Z.min (Z.of_nat (List.length res))
                            number_of_maxima_sought) in
        let opti := Ar (map (@entry_x F) res) in
        let func_eval := Ar (map (@entry_fx F) res) in
        ret (Fell_through (opti, func_eval, Some opt_obj))
      else if String.eqb (optimization_method kw) "hgdlAsync" then
        opt_obj <- hgdl_start func grad bounds kw ;;
        let opti := Sc (lit 0) in
        let func_eval := Sc (lit 0) in
        ret (Returned (opti, func_eval, Some opt_obj))
      else if String.eqb (optimization_method kw) "local" then
        x0 <- lift (local_x0 bounds (optimization_x0 kw)) ;;
        a <- lift (minimize func x0 grad bounds (constraints kw)
                     (optimization_tol kw) (optimization_max_iter kw)) ;;
        let opti := Ar [res_x a] in
        let func_eval := res_fun a in
        let func_eval :=
          if ndim func_eval =? 0 then Ar [func_eval] else func_eval in
        if negb (res_success a) then
          log (Warning local_warning) ;;;
          let opti := x0 in
          let opti := if negb (ndim opti =? 2) then Ar [opti] else opti in
          (* the six positional arguments land on [x], [gp],
             [acquisition_function], [origin], [number_of_maxima_sought]
             and [cost_function] *)
          func_eval <- lift (evaluate_acquisition_function x0 gp
                               acquisition_function origin
                               (cost_function kw)
                               (Data (cost_function_parameters kw))
                               PyNone None PyNone) ;;
          let func_eval :=
            if negb (ndim func_eval =? 1) then Ar [func_eval]
            else func_eval in
          ret (Fell_through (opti, func_eval, None))
        else ret (Fell_through (opti, func_eval, None))
      else raise invalid_method
  end.

Definition find_acquisition_function_maxima
    (gp : GP F) (acquisition_function : acquisition F)
    (origin : option (nd F)) (number_of_maxima_sought : Z)
    (optimization_bounds : nd F) (kw : kwargs F)
  : prog (list log_entry) answer :=
  r <- method_chain gp acquisition_function origin number_of_maxima_sought
         optimization_bounds kw ;;
  match r with
  | Returned a => ret a
  | Fell_through (opti, func_eval, opt_obj) =>
      shape_check opti func_eval opt_obj
  end.

End Dispatcher.

(** * autonomous_experimenter.py *)

Module Experimenter.

Definition handle : Type := nat.

Section Loop.

Context {F : Type} {NP : Numpy F}.

(** The keyword arguments of [gp_optimizer.ask] that [go] computes. *)
Record ask_call : Type := {
  ask_position : nd F;
  ask_n : Z;
  ask_method : string;
  ask_pop_size : Z;
  ask_max_iter : Z;
  ask_tol : nd F;
  ask_dask_client : option client
}.

(** The entries ["x"], ["f(x)"] and ["opt_obj"] of its answer. *)
Record ask_result : Type := {
  ask_x : nd F;
  ask_fx : nd F;
  ask_opt_obj : option handle
}.

(** Calls to the collaborators, in program order. *)
Inductive event : Type :=
| EvNewClient (c : client)
| EvTrainGpAsync (max_iter : Z) (c : option client) (h : handle)
| EvStopAsyncTrain (h : handle)
| EvUpdateHyperparameters (h : handle)
| EvTrainGp (method : string) (pop_size : Z) (tol : F) (max_iter : Z)
| EvAsk (call : ask_call)
| EvTell
| EvRunEveryIteration
| EvUpdateCostFunction
| EvCloseClient (c : client)
| EvLog (e : log_entry).

(** The attributes of [AutonomousExperimenterGP] that training and the loop
    use, and the state of its collaborators: the trainings running in the
    background and the next free identifier. *)
Record experimenter : Type := {
  async_train_in_progress : bool;
  opt_obj : option handle;
  training_dask_client : option client;
  acq_func_opt_dask_client : option client;
  x_data : list (nd F);
  live_trainings : list handle;
  fresh : nat;
  trace : list event
}.

Definition set_async_train_in_progress (b : bool) : prog experimenter unit :=
  modify (fun s =>
    {| async_train_in_progress := b; opt_obj := opt_obj s;
       training_dask_client := training_dask_client s;
       acq_func_opt_dask_client := acq_func_opt_dask_client s;
       x_data := x_data s; live_trainings := live_trainings s;
       fresh := fresh s; trace := trace s |}).

Definition set_opt_obj (h : handle) : prog experimenter unit :=
  modify (fun s =>
    {| async_train_in_progress := async_train_in_progress s;
       opt_obj := Some h;
       training_dask_client := training_dask_client s;
       acq_func_opt_dask_client := acq_func_opt_dask_client s;
       x_data := x_data s; live_trainings := live_trainings s;
       fresh := fresh s; trace := trace s |}).

Definition set_training_dask_client (c : client) : prog experimenter unit :=
  modify (fun s =>
    {| async_train_in_progress := async_train_in_progress s;
       opt_obj := opt_obj s;
       training_dask_client := Some c;
       acq_func_opt_dask_client := acq_func_opt_dask_client s;
       x_data := x_data s; live_trainings := live_trainings s;
       fresh := fresh s; trace := trace s |}).

Definition set_acq_func_opt_dask_client (c : client)
  : prog experimenter unit :=
  modify (fun s =>
    {| async_train_in_progress := async_train_in_progress s;
       opt_obj := opt_obj s;
       training_dask_client := training_dask_client s;
       acq_func_opt_dask_client := Some c;
       x_data := x_data s; live_trainings := live_trainings s;
       fresh := fresh s; trace := trace s |}).

Definition set_x_data (x : list (nd F)) : prog experimenter unit :=
  modify (fun s =>
    {| async_train_in_progress := async_train_in_progress s;
       opt_obj := opt_obj s;
       training_dask_client := training_dask_client s;
       acq_func_opt_dask_client := acq_func_opt_dask_client s;
       x_data := x; live_trainings := live_trainings s;
       fresh := fresh s; trace := trace s |}).

Definition emit (e : event) : prog experimenter unit :=
  modify (fun s =>
    {| async_train_in_progress := async_train_in_progress s;
       opt_obj := opt_obj s;
       training_dask_client := training_dask_client s;
       acq_func_opt_dask_client := acq_func_opt_dask_client s;
       x_data := x_data s; live_trainings := live_trainings s;
       fresh := fresh s; trace := (trace s ++ [e])%list |}).

(** [dask.distributed.Client()] *)
Definition new_client : prog experimenter client :=
  s <- get ;;
  let c := fresh s in
  modify (fun s =>
    {| async_train_in_progress := async_train_in_progress s;
       opt_obj := opt_obj s;
       training_dask_client := training_dask_client s;
       acq_func_opt_dask_client := acq_func_opt_dask_client s;
       x_data := x_data s; live_trainings := live_trainings s;
       fresh := S (fresh s); trace := (trace s ++ [EvNewClient c])%list |}) ;;;
  ret c.

(** Modelled from the spec: [gp_optimizer.train_gp_async] is not in the
    sources at hand.  It is non-blocking and returns a training handle: a
    new background training runs from then on. *)
Definition train_gp_async (max_iter : Z) (c : option client)
  : prog experimenter handle :=
  s <- get ;;
  let h := fresh s in
  modify (fun s =>
    {| async_train_in_progress := async_train_in_progress s;
       opt_obj := opt_obj s;
       training_dask_client := training_dask_client s;
       acq_func_opt_dask_client := acq_func_opt_dask_client s;
       x_data := x_data s; live_trainings := h :: live_trainings s;
       fresh := S (fresh s);
       trace := (trace s ++ [EvTrainGpAsync max_iter c h])%list |}) ;;;
  ret h.

(** Modelled from the spec: [gp_optimizer.stop_async_train] is not in the
    sources at hand.  It cancels the outstanding background task of the
    handle. *)
Definition stop_async_train (h : handle) : prog experimenter unit :=
  modify (fun s =>
    {| async_train_in_progress := async_train_in_progress s;
       opt_obj := opt_obj s;
       training_dask_client := training_dask_client s;
       acq_func_opt_dask_client := acq_func_opt_dask_client s;
       x_data := x_data s;
       live_trainings := filter (fun h' => negb (Nat.eqb h' h))
                                (live_trainings s);
       fresh := fresh s;
       trace := (trace s ++ [EvStopAsyncTrain h])%list |}).

(** [self.name], for an attribute that [__init__] does not set. *)
Definition attribute {A} (name : string) (v : option A) : result A :=
  match v with
  | Some a => Ok a
  | None => Raise (AttributeError name)
  end.

(** [train]: a blocking call of [gp_optimizer.train_gp]. *)
Definition train (pop_size : Z) (tol : F) (max_iter : Z) (method : string)
  : prog experimenter unit :=
  emit (EvTrainGp method pop_size tol max_iter).

Definition train_async (max_iter : Z) (dask_client : option client)
  : prog experimenter unit :=
  (match dask_client with
   | Some c => set_training_dask_client c
   | None => c <- new_client ;; set_training_dask_client c
   end) ;;;
  s <- get ;;
  h <- train_gp_async max_iter (training_dask_client s) ;;
  set_opt_obj h ;;;
  set_async_train_in_progress true.

Definition kill_training : prog experimenter unit :=
  s <- get ;;
  if async_train_in_progress s then
    h <- lift (attribute "opt_obj" (opt_obj s)) ;;
    stop_async_train h ;;;
    set_async_train_in_progress false
  else ret tt.

Definition kill_all_clients : prog experimenter unit :=
  s <- get ;;
  let failed :=
    emit (EvLog (Error "'NoneType' object has no attribute 'close'")) ;;;
    emit (EvLog (Error "Killing of the clients failed. Please do so manually before initializing a new one.")) in
  match training_dask_client s with
  | Some c =>
      emit (EvCloseClient c) ;;;
      match acq_func_opt_dask_client s with
      | Some c' => emit (EvCloseClient c')
      | None => failed
      end
  | None => failed
  end.

Definition update_hps : prog experimenter unit :=
  s <- get ;;
  if async_train_in_progress s then
    h <- lift (attribute "opt_obj" (opt_obj s)) ;;
    emit (EvUpdateHyperparameters h)
  else
    emit (EvLog (Warning "The autonomous experimenter could not find an instance of asynchronous training. Therefore no update.")).

(** The keyword arguments of [go]. *)
Record go_kwargs : Type := {
  N : Z;
  retrain_globally_at : list Z;
  retrain_locally_at : list Z;
  retrain_async_at : list Z;
  update_cost_func_at : list Z;
  acq_func_opt_setting : Z -> string;
  training_opt_max_iter : Z;
  training_opt_pop_size : Z;
  training_opt_tol : F;
  acq_func_opt_max_iter : Z;
  acq_func_opt_pop_size : Z;
  acq_func_opt_tol : F;
  acq_func_opt_tol_adjust : F;
  number_of_suggested_measurements : Z;
  checkpoint_filename : option string
}.

(** What the surroundings answer during one iteration: [gp_optimizer.ask];
    whether [error < breaking_error] for the posterior variance at the
    suggested points; the positions extracted from the data set after the
    instrument was called and the data were checked and cleaned; whether a
    [run_every_iteration] hook is installed (it is taken to leave the
    experimenter as it is); whether [np.save] succeeds;
    [break_condition_callable(self)]. *)
Record surroundings : Type := {
  w_ask : ask_call -> result ask_result;
  w_error_below : result bool;
  w_measured : result (list (nd F));
  w_hook : bool;
  w_save_ok : bool;
  w_break : bool
}.

(** The variables of the loop. *)
Record loop_vars : Type := {
  i : Z;
  n_measurements : Z;
  tol : nd F
}.

(** [any(n in schedule for n in range(lo, hi))] *)
Definition any_in (schedule : list Z) (lo hi : Z) : bool :=
  existsb (fun n => existsb (Z.eqb n) schedule) (py_range lo hi).

(** The [# retrain()] part of the loop body. *)
Definition retrain (kw : go_kwargs) (n_measurements : Z)
  : prog experimenter unit :=
  s <- get ;;
  let len_x := Z.of_nat (List.length (x_data s)) in
  if any_in (retrain_async_at kw) n_measurements len_x
     && (n_measurements <? N kw) then
    (match training_dask_client s with
     | None => c <- new_client ;; set_training_dask_client c
     | Some _ => ret tt
     end) ;;;
    kill_training ;;;
    s <- get ;;
    train_async (training_opt_max_iter kw) (training_dask_client s)
  else if any_in (retrain_globally_at kw) n_measurements len_x
          && (n_measurements <? N kw) then
    kill_training ;;;
    train (training_opt_pop_size kw) (training_opt_tol kw)
          (training_opt_max_iter kw) "global"
  else if any_in (retrain_locally_at kw) n_measurements len_x
          && (n_measurements <? N kw) then
    kill_training ;;;
    train (training_opt_pop_size kw) (training_opt_tol kw)
          (training_opt_max_iter kw) "local"
  else update_hps.

(** [local_method], after the adjustment for several suggestions. *)
Definition iteration_method (kw : go_kwargs) (i : Z) : string :=
  let local_method := acq_func_opt_setting kw i in
  if (1 <? number_of_suggested_measurements kw)
     && negb (String.eqb local_method "hgdl")
  then "global" else local_method.

(** The [# ask()] part of the loop body, up to the arguments of
    [gp_optimizer.ask]. *)
Definition prepare_ask (kw : go_kwargs) (v : loop_vars)
  : prog experimenter ask_call :=
  s <- get ;;
  current_position <- lift (list_get (x_data s) (-1)) ;;
  let local_method := iteration_method kw (i v) in
  (if String.eqb local_method "hgdl" then
     match acq_func_opt_dask_client s with
     | None => c <- new_client ;; set_acq_func_opt_dask_client c
     | Some _ => ret tt
     end
   else ret tt) ;;;
  s <- get ;;
  ret {| ask_position := current_position;
         ask_n := number_of_suggested_measurements kw;
         ask_method := local_method;
         ask_pop_size := acq_func_opt_pop_size kw;
         ask_max_iter := acq_func_opt_max_iter kw;
         ask_tol := tol v;
         ask_dask_client := acq_func_opt_dask_client s |}.

(** The [# adjust tolerances if necessary] part. *)
Definition adjust_tolerance (kw : go_kwargs) (func_evals : nd F)
    (acq_func_opt_tol : nd F) : result (nd F) :=
  if float_truth (acq_func_opt_tol_adjust kw) then
    let? f0 := nd_get func_evals 0 in
    np_mul (np_abs f0) (Sc (acq_func_opt_tol_adjust kw))
  else Ok acq_func_opt_tol.

(** [if checkpoint_filename:] *)
Definition checkpoint_wanted (kw : go_kwargs) : bool :=
  match checkpoint_filename kw with
  | Some f => negb (String.eqb f "")
  | None => false
  end.

(** The loop body from the call of [gp_optimizer.ask] on.  The boolean tells
    whether the pass ended in [break]. *)
Definition after_ask (kw : go_kwargs) (w : surroundings) (v : loop_vars)
    (call : ask_call) : prog experimenter (bool * loop_vars) :=
  emit (EvAsk call) ;;;
  res <- lift (w_ask w call) ;;
  below <- lift (w_error_below w) ;;
  tol' <- lift (adjust_tolerance kw (ask_fx res) (tol v)) ;;
  x <- lift (w_measured w) ;;
  set_x_data x ;;;
  emit EvTell ;;;
  retrain kw (n_measurements v) ;;;
  (if w_hook w then emit EvRunEveryIteration else ret tt) ;;;
  (if checkpoint_wanted kw && negb (w_save_ok w)
   then raise (RuntimeError "Data not saved") else ret tt) ;;;
  (if existsb (Z.eqb (i v)) (update_cost_func_at kw)
   then emit EvUpdateCostFunction else ret tt) ;;;
  let stay := {| i := i v; n_measurements := n_measurements v;
                 tol := tol' |} in
  if below then ret (true, stay)
  else if w_break w then ret (true, stay)
  else
    s <- get ;;
    ret (false, {| i := i v + 1;
                   n_measurements := Z.of_nat (List.length (x_data s));
                   tol := tol' |}).

(** One pass through the body of the [while] loop. *)
Definition go_body (kw : go_kwargs) (w : surroundings) (v : loop_vars)
  : prog experimenter (bool * loop_vars) :=
  call <- prepare_ask kw v ;;
  after_ask kw w v call.

(** The [while n_measurements < N] loop, for at most [fuel] passes; [false]
    when the passes did not suffice. *)
Fixpoint go_loop (fuel : nat) (kw : go_kwargs) (world : Z -> surroundings)
    (v : loop_vars) : prog experimenter bool :=
  match fuel with
  | O => ret false
  | S fuel' =>
      if n_measurements v <? N kw then
        r <- go_body kw (world (i v)) v ;;
        if fst r then ret true else go_loop fuel' kw world (snd r)
      else ret true
  end.

Definition go (fuel : nat) (kw : go_kwargs) (world : Z -> surroundings)
  : prog experimenter bool :=
  s <- get ;;
  let v := {| i := 0;
              n_measurements := Z.of_nat (List.length (x_data s));
              tol := Sc (acq_func_opt_tol kw) |} in
  finished <- go_loop fuel kw world v ;;
  (if finished then kill_all_clients else ret tt) ;;;
  ret finished.

(** The experimenter after [__init__] with the given data and clients. *)
Definition init (x : list (nd F)) (training acq : option client) (next : nat)
  : experimenter :=
  {| async_train_in_progress := false; opt_obj := None;
     training_dask_client := training;
     acq_func_opt_dask_client := acq;
     x_data := x; live_trainings := []; fresh := next; trace := [] |}.

(** Calls of the training methods from outside, one after the other. *)
Inductive call : Type :=
| CallTrainAsync (max_iter : Z) (dask_client : option client)
| CallKillTraining
| CallUpdateHps
| CallTrain (pop_size : Z) (tol : F) (max_iter : Z) (method : string).

Definition run_call (c : call) : prog experimenter unit :=
  match c with
  | CallTrainAsync max_iter dask_client => train_async max_iter dask_client
  | CallKillTraining => kill_training
  | CallUpdateHps => update_hps
  | CallTrain pop_size tol max_iter method =>
      train pop_size tol max_iter method
  end.

Fixpoint run_calls (cs : list call) : prog experimenter unit :=
  match cs with
  | [] => ret tt
  | c :: cs' => run_call c ;;; run_calls cs'
  end.

(** Every [train_async] in the sequence comes directly after a
    [kill_training], as in [go]. *)
Fixpoint kill_before_train_async (cs : list call) : bool :=
  match cs with
  | [] => true
  | CallTrainAsync _ _ :: _ => false
  | CallKillTraining :: CallTrainAsync _ _ :: cs' =>
      kill_before_train_async cs'
  | _ :: cs' => kill_before_train_async cs'
  end.

End Loop.

Arguments ask_call : clear implicits.
Arguments ask_result : clear implicits.
Arguments event : clear implicits.
Arguments experimenter : clear implicits.
Arguments go_kwargs : clear implicits.
Arguments surroundings : clear implicits.
Arguments loop_vars : clear implicits.
Arguments call : clear implicits.

End Experimenter.

(** ** The constructors *)

Module Construction.

Import Experimenter.

(** Where the initial data come from. *)
Inductive source : Type :=
| RandomPoints (init_dataset_size : option Z)
| DatasetFile
| GivenArrays
| MeasuredArrays.

Definition provide_data : exn :=
  PyException "Either provide length of initial data or an inital dataset".

Definition need_instrument : exn :=
  PyException "You need to provide an instrument function.".

Definition no_viable_option : exn :=
  PyException "No viable option for data given!".

(** The [# getting the data ready] part of both [__init__]: which of the
    arguments are [None] decides.  The booleans tell that [x_data],
    [y_data], [dataset] and [instrument_func] are given. *)
Definition choose_source (init_dataset_size : option Z)
    (x_data y_data dataset instrument_func : bool) : result source :=
  if (match init_dataset_size with None => true | Some _ => false end)
     && negb x_data && negb dataset
  then Raise provide_data
  else if negb x_data && negb dataset then
    if negb instrument_func then Raise need_instrument
    else Ok (RandomPoints init_dataset_size)
  else if dataset then Ok DatasetFile
  else if x_data && y_data then Ok GivenArrays
  else if x_data && negb y_data then
    if negb instrument_func then Raise need_instrument
    else Ok MeasuredArrays
  else Raise no_viable_option.

Section Constructors.

Context {F : Type}.

(** The arguments of [__init__] that the loop and the training use;
    [extracted] are the positions that [self.data.extract_data()] gives once
    the data are in place, checked and cleaned. *)
Record init_args : Type := {
  init_dataset_size : option Z;
  x_data_given : bool;
  y_data_given : bool;
  dataset_given : bool;
  instrument_func_given : bool;
  training_client : option client;
  acq_client : option client;
  extracted : list (nd F)
}.

(** The object when [__init__] starts assigning. *)
Definition blank (a : init_args) : experimenter F :=
  init [] (training_client a) (acq_client a) 0.

(** [AutonomousExperimenterGP.__init__] *)
Definition construct_gp (a : init_args) : prog (experimenter F) unit :=
  src <- lift (choose_source (init_dataset_size a) (x_data_given a)
                 (y_data_given a) (dataset_given a)
                 (instrument_func_given a)) ;;
  set_x_data (extracted a).

(** [AutonomousExperimenterFvGP.__init__]: the clients come first. *)
Definition construct_fvgp (a : init_args) : prog (experimenter F) unit :=
  s <- get ;;
  (match training_dask_client s with
   | None => c <- new_client ;; set_training_dask_client c
   | Some _ => ret tt
   end) ;;;
  s <- get ;;
  (match acq_func_opt_dask_client s, training_dask_client s with
   | None, Some c => set_acq_func_opt_dask_client c
   | _, _ => ret tt
   end) ;;;
  src <- lift (choose_source (init_dataset_size a) (x_data_given a)
                 (y_data_given a) (dataset_given a)
                 (instrument_func_given a)) ;;
  set_x_data (extracted a).

End Constructors.

Arguments init_args : clear implicits.

End Construction.

(** * An interpretation over the rationals

    Used to run the definitions on concrete inputs.  A float is a rational
    or [None], which stands for a value outside the rationals (nan, inf) or
    one that this interpretation does not compute: the square root and the
    functions of [scipy.stats] and [math] answer [None].  Arithmetic is
    exact and propagates [None]; arrays of equal shape combine entry by
    entry and a scalar combines with every entry. *)

Module Rational.

Definition float : Type := option Q.

Definition op1 (f : Q -> Q) (a : float) : float :=
  match a with Some q => Some (Qred (f q)) | None => None end.

Definition op2 (f : Q -> Q -> Q) (a b : float) : float :=
  match a, b with
  | Some p, Some q => Some (Qred (f p q))
  | _, _ => None
  end.

Definition fdiv (a b : float) : float :=
  match a, b with
  | Some p, Some q => if Qeq_bool q 0 then None else Some (Qred (p / q))
  | _, _ => None
  end.

Definition truth (a : float) : bool :=
  match a with Some q => negb (Qeq_bool q 0) | None => true end.

Fixpoint nd_map (f : float -> float) (a : nd float) : nd float :=
  match a with
  | Sc v => Sc (f v)
  | Ar l => Ar (map (nd_map f) l)
  end.

Definition broadcast_error : exn :=
  ValueError "operands could not be broadcast together".

Fixpoint nd_zip (f : float -> float -> float) (a b : nd float)
  : result (nd float) :=
  match a, b with
  | Sc x, Sc y => Ok (Sc (f x y))
  | Sc x, Ar _ => Ok (nd_map (f x) b)
  | Ar _, Sc y => Ok (nd_map (fun x => f x y) a)
  | Ar la, Ar lb =>
      let fix zip (la lb : list (nd float)) : result (list (nd float)) :=
        match la, lb with
        | [], [] => Ok []
        | x :: la', y :: lb' =>
            let? z := nd_zip f x y in
            let? r := zip la' lb' in
            Ok (z :: r)
        | _, _ => Raise broadcast_error
        end in
      let? l := zip la lb in
      Ok (Ar l)
  end.

Fixpoint flatten (a : nd float) : list float :=
  match a with
  | Sc v => [v]
  | Ar l => flat_map flatten l
  end.

Fixpoint array_truth (a : nd float) : result bool :=
  match a with
  | Sc v => Ok (truth v)
  | Ar [] => Ok false
  | Ar [x] => array_truth x
  | Ar _ => Raise (ValueError "The truth value of an array with more than one element is ambiguous")
  end.

Definition fmax (a b : float) : float :=
  match a, b with
  | Some p, Some q => if Qle_bool p q then Some q else Some p
  | _, _ => None
  end.

Definition array_max (a : nd float) : result (nd float) :=
  match flatten a with
  | [] => Raise (ValueError "zero-size array to reduction operation maximum which has no identity")
  | v :: l => Ok (Sc (fold_left fmax l v))
  end.

Definition row_sum (row : nd float) : nd float :=
  Sc (fold_left (op2 Qplus) (flatten row) (Some 0%Q)).

Definition rows (a : nd float) : result (list (nd float)) :=
  if 2 <=? ndim a then py_list a
  else Raise (ValueError "axis 1 is out of bounds").

Fixpoint chunks (n : nat) (c : nat) (l : list float) : list (nd float) :=
  match n with
  | O => []
  | S n' => Ar (map Sc (firstn c l)) :: chunks n' c (skipn c l)
  end.

Definition reshape (a : nd float) (r c : Z) : result (nd float) :=
  let l := flatten a in
  let size := Z.of_nat (List.length l) in
  if (r =? 1) && (c =? -1) then Ok (Ar [Ar (map Sc l)])
  else if (0 <=? r) && (0 <=? c) && (r * c =? size)
       then Ok (Ar (chunks (Z.to_nat r) (Z.to_nat c) l))
       else Raise (ValueError "cannot reshape array")%string.

Fixpoint collect {A} (l : list (result A)) : result (list A) :=
  match l with
  | [] => Ok []
  | c :: l' => let? a := c in let? r := collect l' in Ok (a :: r)
  end.

Definition column (a : nd float) (j : Z) : result (nd float) :=
  let? rs := rows a in
  let? l := collect (map (fun row => nd_get row j) rs) in
  Ok (Ar l).

(** [a.T] for arrays of rank at most 2. *)
Definition transpose (a : nd float) : nd float :=
  match a with
  | Ar (Ar first :: _) =>
      match collect (map (fun j => column a (Z.of_nat j))
                         (seq 0 (List.length first))) with
      | Ok cols => Ar cols
      | Raise _ => a
      end
  | _ => a
  end.

Definition erf (a : nd float) : result (nd float) :=
  match flatten a with
  | [_] => Ok (Sc None)
  | _ => Raise (TypeError "only length-1 arrays can be converted to Python scalars")
  end.

#[export] Instance numpy : Numpy float := {|
  lit := fun q => Some (Qred q);
  float_truth := truth;
  np_truth := array_truth;
  np_neg := nd_map (op1 Qopp);
  np_abs := nd_map (op1 Qabs);
  np_sqrt := nd_map (fun _ => None);
  np_add := nd_zip (op2 Qplus);
  np_sub := nd_zip (op2 Qminus);
  np_mul := nd_zip (op2 Qmult);
  np_div := nd_zip fdiv;
  np_max := array_max;
  np_linalg_norm_axis1 :=
    fun a => let? rs := rows a in Ok (Ar (map (fun _ => Sc None) rs));
  np_sum_axis1 := fun a => let? rs := rows a in Ok (Ar (map row_sum rs));
  np_reshape := reshape;
  np_zero_negative :=
    fun a => Ok (nd_map (fun v => match v with
                                  | Some q => if Qle_bool 0 q then Some q
                                              else Some 0%Q
                                  | None => None
                                  end) a);
  np_T := transpose;
  np_column := column;
  norm_cdf := nd_map (fun _ => None);
  norm_pdf := nd_map (fun _ => None);
  math_erf := erf
|}.

End Rational.

(** * Collaborators for the examples *)

Module Fixture.

Import Rational.

Definition num (q : Q) : nd float := Sc (Some (Qred q)).

(** One value for every row of the batch. *)
Definition per_row (v : Q) (x : nd float) : result (nd float) :=
  let? l := py_list x in
  Ok (Ar (map (fun _ => num v) l)).

(** A process with posterior mean 2 and variance 4 everywhere. *)
Definition gp : GP float := {|
  posterior_mean := fun x _ => per_row 2 x;
  posterior_covariance := fun x _ _ => per_row 4 x;
  posterior_mean_grad :=
    fun x _ => let? l := py_list x in Ok (Ar (map (fun _ => Ar [num 0]) l));
  gp_relative_information_entropy := fun _ _ => Ok (num 1);
  gp_relative_information_entropy_set := fun x _ => per_row 1 x;
  gp_total_correlation := fun _ _ => Ok (num 1);
  y_data := Ar [num 1; num 3]
|}.

Definition objective : Type := nd float -> result (nd float).

(** A local solver that evaluates the objective at the starting point and
    gives up there. *)
Definition minimize_gives_up (f : objective) (x0 : nd float)
    (jac : objective) : result (OptimizeResult float) :=
  let? y := f x0 in
  Ok {| res_x := x0; res_fun := y; res_success := false |}.

(** A local solver that, as L-BFGS-B does, starts with the objective and its
    gradient at the starting point. *)
Definition minimize_with_gradient (f : objective) (x0 : nd float)
    (jac : objective) : result (OptimizeResult float) :=
  let? y := f x0 in
  let? g := jac x0 in
  Ok {| res_x := x0; res_fun := y; res_success := true |}.

(** The global search and HGDL look at the lower corner of the box only;
    the random draw is the lower corner. *)
Definition solvers
    (mini : objective -> nd float -> objective ->
            result (OptimizeResult float))
  : Solvers float := {|
  devo := fun f bounds _ _ _ _ _ _ vectorized =>
    let? low := np_column bounds 0 in
    let? y := f (if vectorized then np_T (Ar [low]) else low) in
    let? y0 := nd_get y 0 in
    Ok {| res_x := low; res_fun := y0; res_success := true |};
  minimize := fun f x0 jac _ _ _ _ => mini f x0 jac;
  HGDL := fun f _ bounds _ _ =>
    let? low := np_column bounds 0 in
    let? y := f low in
    let? y0 := nd_get y 0 in
    Ok {| hgdl_optimize := fun _ _ _ => Ok tt;
          hgdl_get_final := Ok [ {| entry_x := low; entry_fx := y0 |} ];
          hgdl_cancel_tasks := Ok tt |};
  random_uniform := fun low _ _ => Ok low
|}.

(** The defaults of the dispatcher's keyword arguments, for a method. *)
Definition defaults (method : string) : kwargs float := {|
  optimization_method := method;
  optimization_pop_size := 20;
  optimization_max_iter := 10;
  optimization_tol := Some (Qred (1 # 1000000));
  optimization_x0 := None;
  constraints := [];
  cost_function := Data PyNone;
  cost_function_parameters := PyNone;
  vectorized := true;
  candidate_set := [];
  x_out := None;
  args := PyDict [];
  dask_client := None;
  info := false
|}.

Definition with_x0 (x0 : nd float) (kw : kwargs float) : kwargs float := {|
  optimization_method := optimization_method kw;
  optimization_pop_size := optimization_pop_size kw;
  optimization_max_iter := optimization_max_iter kw;
  optimization_tol := optimization_tol kw;
  optimization_x0 := Some x0;
  constraints := constraints kw;
  cost_function := cost_function kw;
  cost_function_parameters := cost_function_parameters kw;
  vectorized := vectorized kw;
  candidate_set := candidate_set kw;
  x_out := x_out kw;
  args := args kw;
  dask_client := dask_client kw;
  info := info kw
|}.

Definition with_cost (c : pyobj float) (p : pydata float)
    (kw : kwargs float) : kwargs float := {|
  optimization_method := optimization_method kw;
  optimization_pop_size := optimization_pop_size kw;
  optimization_max_iter := optimization_max_iter kw;
  optimization_tol := optimization_tol kw;
  optimization_x0 := optimization_x0 kw;
  constraints := constraints kw;
  cost_function := c;
  cost_function_parameters := p;
  vectorized := vectorized kw;
  candidate_set := candidate_set kw;
  x_out := x_out kw;
  args := args kw;
  dask_client := dask_client kw;
  info := info kw
|}.

Definition with_candidates (cs : list (nd float)) (kw : kwargs float)
  : kwargs float := {|
  optimization_method := optimization_method kw;
  optimization_pop_size := optimization_pop_size kw;
  optimization_max_iter := optimization_max_iter kw;
  optimization_tol := optimization_tol kw;
  optimization_x0 := optimization_x0 kw;
  constraints := constraints kw;
  cost_function := cost_function kw;
  cost_function_parameters := cost_function_parameters kw;
  vectorized := vectorized kw;
  candidate_set := cs;
  x_out := x_out kw;
  args := args kw;
  dask_client := dask_client kw;
  info := info kw
|}.

(** The box [[0, 1]], a position in it and the origin. *)
Definition unit_box : nd float := Ar [Ar [num 0; num 1]].
Definition half : nd float := Ar [num (1 # 2)].
Definition start : nd float := Ar [num 0].

Definition variance : acquisition float := AcqKind "variance".

(** A cost of 2 for every move. *)
Definition cost_two : pyobj float := Callable (fun _ x _ => per_row 2 x).

Definition dispatch
    (mini : objective -> nd float -> objective ->
            result (OptimizeResult float))
    (acq : acquisition float) (origin : option (nd float))
    (kw : kwargs float) : result (@answer float) * list log_entry :=
  @find_acquisition_function_maxima float numpy (solvers mini)
    gp acq origin 1 unit_box kw [].

(** ** The loop *)

Import Experimenter.

(** Two suggestions per pass, the local method asked for, retraining as
    scheduled by default, and a tolerance factor. *)
Definition go_defaults (adjust : float) : go_kwargs float := {|
  N := 100;
  retrain_globally_at := [20; 50; 100; 400; 1000];
  retrain_locally_at := [20; 40; 60; 80; 100; 200; 400; 1000];
  retrain_async_at := [];
  update_cost_func_at := [];
  acq_func_opt_setting := fun _ => "local";
  training_opt_max_iter := 20;
  training_opt_pop_size := 10;
  training_opt_tol := Some (Qred (1 # 1000000));
  acq_func_opt_max_iter := 20;
  acq_func_opt_pop_size := 20;
  acq_func_opt_tol := Some (Qred (1 # 1000000));
  acq_func_opt_tol_adjust := adjust;
  number_of_suggested_measurements := 2;
  checkpoint_filename := None
|}.

(** The same with an asynchronous retraining due at 20 measurements. *)
Definition go_async : go_kwargs float := {|
  N := 100;
  retrain_globally_at := [20; 50; 100; 400; 1000];
  retrain_locally_at := [20; 40; 60; 80; 100; 200; 400; 1000];
  retrain_async_at := [20];
  update_cost_func_at := [];
  acq_func_opt_setting := fun _ => "local";
  training_opt_max_iter := 20;
  training_opt_pop_size := 10;
  training_opt_tol := Some (Qred (1 # 1000000));
  acq_func_opt_max_iter := 20;
  acq_func_opt_pop_size := 20;
  acq_func_opt_tol := Some (Qred (1 # 1000000));
  acq_func_opt_tol_adjust := Some (Qred (1 # 10));
  number_of_suggested_measurements := 2;
  checkpoint_filename := None
|}.

(** Surroundings in which [ask] answers the position 1/2 with score -5 and
    the data set then holds the given positions. *)
Definition answers (measured : list (nd float)) : surroundings float := {|
  w_ask := fun _ => Ok {| ask_x := Ar [half]; ask_fx := Ar [num (-5)];
                          ask_opt_obj := None |};
  w_error_below := Ok false;
  w_measured := Ok measured;
  w_hook := false;
  w_save_ok := true;
  w_break := false
|}.

Definition first_pass : loop_vars float :=
  {| i := 0; n_measurements := 1; tol := num (1 # 1000000) |}.

(** Twenty positions already measured, and a pass that starts there. *)
Definition twenty : list (nd float) := repeat start 20.

Definition pass_at_twenty : loop_vars float :=
  {| i := 0; n_measurements := 20; tol := num (1 # 1000000) |}.

Definition fresh_experimenter (x : list (nd float)) : experimenter float :=
  init x None None 0.

(** The arguments of [ask] in the first pass. *)
Definition first_ask : ask_call float := {|
  ask_position := start;
  ask_n := 2;
  ask_method := "global";
  ask_pop_size := 20;
  ask_max_iter := 20;
  ask_tol := num (1 # 1000000);
  ask_dask_client := None
|}.

(** Calls that restart the asynchronous training the way [go] does. *)
Definition restarts : list (call float) :=
  [ CallKillTraining; CallTrainAsync 10 None; CallUpdateHps;
    CallKillTraining; CallTrainAsync 10 None ].

(** Two [train_async] in a row. *)
Definition twice : list (call float) :=
  [ CallTrainAsync 10 None; CallTrainAsync 10 None ].

End Fixture.

(** ** More inputs for the examples *)

Module Inputs.

Import Rational Fixture Experimenter Construction.

(** Keyword arguments with arguments for the ['target probability'] kind. *)
Definition with_args (a : pydata float) (kw : kwargs float)
  : kwargs float := {|
  optimization_method := optimization_method kw;
  optimization_pop_size := optimization_pop_size kw;
  optimization_max_iter := optimization_max_iter kw;
  optimization_tol := optimization_tol kw;
  optimization_x0 := optimization_x0 kw;
  constraints := constraints kw;
  cost_function := cost_function kw;
  cost_function_parameters := cost_function_parameters kw;
  vectorized := vectorized kw;
  candidate_set := candidate_set kw;
  x_out := x_out kw;
  args := a;
  dask_client := dask_client kw;
  info := info kw
|}.

Definition window : pydata float := PyDict [("a", num 1); ("b", num 3)].

(** An HGDL object that found the given optima. *)
Definition hgdl_found (es : list (hgdl_entry float)) : HGDL_obj float := {|
  hgdl_optimize := fun _ _ _ => Ok tt;
  hgdl_get_final := Ok es;
  hgdl_cancel_tasks := Ok tt
|}.

Definition optimum (x y : Q) : hgdl_entry float :=
  {| entry_x := Ar [num x]; entry_fx := num y |}.

Definition three_optima : list (hgdl_entry float) :=
  [ optimum 0 (-4); optimum (1 # 2) (-3); optimum 1 (-2) ].

(** Solvers whose HGDL finds the given optima. *)
Definition solvers_finding (es : list (hgdl_entry float)) : Solvers float := {|
  devo := @devo float (solvers minimize_gives_up);
  minimize := @minimize float (solvers minimize_gives_up);
  HGDL := fun _ _ _ _ _ => Ok (hgdl_found es);
  random_uniform := @random_uniform float (solvers minimize_gives_up)
|}.

(** A local solver that converges at the starting point. *)
Definition minimize_converges (f : objective) (x0 : nd float)
    (jac : objective) : result (OptimizeResult float) :=
  let? y := f x0 in
  Ok {| res_x := x0; res_fun := y; res_success := true |}.

(** An experimenter with one asynchronous training running. *)
Definition training : experimenter float :=
  snd (train_async 10 None (fresh_experimenter [start])).

(** Surroundings whose data set grows by one position in every pass. *)
Definition growing (k : Z) : surroundings float :=
  answers (repeat start (Z.to_nat (k + 2))).

(** Surroundings whose instrument fails. *)
Definition instrument_fails : surroundings float := {|
  w_ask := w_ask (answers []);
  w_error_below := Ok false;
  w_measured := Raise (CollaboratorError "instrument");
  w_hook := false;
  w_save_ok := true;
  w_break := false
|}.

(** Surroundings in which the posterior error is below the threshold. *)
Definition converged : surroundings float := {|
  w_ask := w_ask (answers []);
  w_error_below := Ok true;
  w_measured := Ok [start; half];
  w_hook := false;
  w_save_ok := true;
  w_break := false
|}.

Definition go_hgdl : go_kwargs float := {|
  N := 100;
  retrain_globally_at := [];
  retrain_locally_at := [];
  retrain_async_at := [];
  update_cost_func_at := [];
  acq_func_opt_setting := fun _ => "hgdl";
  training_opt_max_iter := 20;
  training_opt_pop_size := 10;
  training_opt_tol := Some (Qred (1 # 1000000));
  acq_func_opt_max_iter := 20;
  acq_func_opt_pop_size := 20;
  acq_func_opt_tol := Some (Qred (1 # 1000000));
  acq_func_opt_tol_adjust := Some (Qred (1 # 10));
  number_of_suggested_measurements := 2;
  checkpoint_filename := None
|}.

(** Five measurements wanted. *)
Definition go_five : go_kwargs float := {|
  N := 5;
  retrain_globally_at := [20; 50; 100; 400; 1000];
  retrain_locally_at := [20; 40; 60; 80; 100; 200; 400; 1000];
  retrain_async_at := [];
  update_cost_func_at := [];
  acq_func_opt_setting := fun _ => "global";
  training_opt_max_iter := 20;
  training_opt_pop_size := 10;
  training_opt_tol := Some (Qred (1 # 1000000));
  acq_func_opt_max_iter := 20;
  acq_func_opt_pop_size := 20;
  acq_func_opt_tol := Some (Qred (1 # 1000000));
  acq_func_opt_tol_adjust := Some (Qred (1 # 10));
  number_of_suggested_measurements := 1;
  checkpoint_filename := None
|}.

(** Arguments of a constructor: three random points, an instrument, no
    clients. *)
Definition three_random : init_args float := {|
  init_dataset_size := Some 3;
  x_data_given := false;
  y_data_given := false;
  dataset_given := false;
  instrument_func_given := true;
  training_client := None;
  acq_client := None;
  extracted := [start; half; start]
|}.

End Inputs.

(** * Vocabulary of the statements *)

(** The strings that [evaluate_gp_acquisition_function] compares with. *)
Definition kinds : list string :=
  [ "variance"; "relative information entropy";
    "relative information entropy set"; "ucb"; "lcb"; "maximum"; "gradient";
    "minimum"; "probability of improvement"; "total correlation";
    "expected improvement"; "target probability" ].

(** The strings that the dispatcher compares with. *)
Definition methods : list string := [ "global"; "hgdl"; "hgdlAsync"; "local" ].

Section Convention.

Context {F : Type} {NP : Numpy F}.

(** The cost as the sign convention words it: the cost function at the
    origin and the batch when both are supplied, 1.0 otherwise. *)
Definition cost_of (cost_function : pyobj F) (origin : option (nd F))
    (x : nd F) (cost_function_parameters : pydata F) : result (nd F) :=
  match cost_function, origin with
  | Data PyNone, _ => Ok (Sc (lit 1))
  | _, None => Ok (Sc (lit 1))
  | _, Some o => py_call cost_function o x cost_function_parameters
  end.

(** The goodness: of the user's callable, or of the selected kind. *)
Definition goodness (acquisition_function : acquisition F) (x : nd F)
    (gp : GP F) (number_of_maxima_sought : pyobj F) (x_out : option (nd F))
    (args : pydata F) : result (nd F) :=
  match acquisition_function with
  | AcqCallable f => f x gp
  | _ => evaluate_gp_acquisition_function x acquisition_function gp
           number_of_maxima_sought x_out args
  end.

End Convention.


Inductive action : Type := Async | Global | Local | Poll.

Section Schedule.

Import Experimenter.

Context {F : Type} {NP : Numpy F}.


(** What each action consists of. *)
Definition perform (kw : go_kwargs F) (a : action)
  : prog (experimenter F) unit :=
  match a with
  | Async =>
      s <- get ;;
      (match training_dask_client s with
       | None => c <- new_client ;; set_training_dask_client c
       | Some _ => ret tt
       end) ;;;
      kill_training ;;;
      s <- get ;;
      train_async (training_opt_max_iter kw) (training_dask_client s)
  | Global =>
      kill_training ;;;
      train (training_opt_pop_size kw) (training_opt_tol kw)
            (training_opt_max_iter kw) "global"
  | Local =>
      kill_training ;;;
      train (training_opt_pop_size kw) (training_opt_tol kw)
            (training_opt_max_iter kw) "local"
  | Poll => update_hps
  end.

(** The flag and the stored handle account for the trainings that run: the
    stored one when the flag is set, none otherwise. *)
Definition coherent (s : experimenter F) : Prop :=
  if async_train_in_progress s
  then exists h, opt_obj s = Some h /\ live_trainings s = [h]
  else live_trainings s = [].

End Schedule.

(** The kinds that [evaluate_gp_acquisition_function] knows when output
    positions are given. *)
Definition kinds_x_out : list string :=
  [ "variance"; "relative information entropy";
    "relative information entropy set"; "total correlation" ].

Section Objective.

Context {F : Type} {NP : Numpy F}.

(** The objective that the dispatcher hands to the optimizers: [func]. *)
Definition acquisition_objective (gp : GP F) (acq : acquisition F)
    (origin : option (nd F)) (m : Z) (kw : kwargs F)
  : nd F -> result (nd F) :=
  fun x =>
    evaluate_acquisition_function x gp acq origin (Data (PyInt m))
      (cost_function kw) (cost_function_parameters kw) (x_out kw) (args kw).

(** Its gradient as handed on: [grad]. *)
Definition acquisition_gradient (gp : GP F) (acq : acquisition F)
    (origin : option (nd F)) (m : Z) (kw : kwargs F)
  : nd F -> result (nd F) :=
  fun x => gradient x (acquisition_objective gp acq origin m kw).

(** How many entries [res[0:min(len(res), n)]] keeps. *)
Definition kept (len n : Z) : nat :=
  if n <? 0 then Z.to_nat (Z.max 0 (n + len)) else Z.to_nat (Z.min len n).

End Objective.

Section Bookkeeping.

Import Experimenter.

Context {F : Type}.

(** A set flag comes with a stored handle. *)
Definition flag_has_handle (s : experimenter F) : Prop :=
  async_train_in_progress s = true -> opt_obj s <> None.

(** The identifiers in use are below the next free one. *)
Definition handles_below_fresh (s : experimenter F) : Prop :=
  forall h, In h (live_trainings s) -> (h < fresh s)%nat.

End Bookkeeping.

Section Actions.

Import Experimenter.

Context {F : Type}.






End Actions.

(** * The evaluator *)

Section EvaluatorFacts.

Context {F : Type} {NP : Numpy F}.

Lemma promote_rank1 (x : nd F) : ndim x = 1 -> promote x = Ar [x].
Proof.
  intros H. unfold promote. rewrite H. reflexivity.
Qed.

Lemma promote_row (x : nd F) : ndim x = 1 -> promote (Ar [x]) = Ar [x].
Proof.
  intros H. unfold promote. cbn [ndim]. rewrite H. reflexivity.
Qed.

Lemma evaluate_by_convention
    (x : nd F) (gp : GP F) (acq : acquisition F) (origin : option (nd F))
    (n : pyobj F) (cost : pyobj F) (params : pydata F)
    (xo : option (nd F)) (args : pydata F) :
  evaluate_acquisition_function x gp acq origin n cost params xo args =
  (let? cost_eval := cost_of cost origin (promote x) params in
   let? g := goodness acq (promote x) gp n xo args in
   np_div (np_neg g) cost_eval).
Proof.
  unfold evaluate_acquisition_function, cost_of, goodness.
  destruct origin as [o|]; destruct cost as [[| |]|]; cbn [is_none negb];
    destruct acq; reflexivity.
Qed.

(** C4: the evaluator returns the negated goodness of the callable or of the
    selected kind, divided by the cost, where the cost is
    [cost_function(origin, x, cost_function_parameters)] when a cost function
    and an origin are both given and 1.0 otherwise. *)
Theorem C4_negated_goodness_over_cost
    (x : nd F) (gp : GP F) (acq : acquisition F) (origin : option (nd F))
    (n : pyobj F) (cost : pyobj F) (params : pydata F)
    (xo : option (nd F)) (args : pydata F) :
  evaluate_acquisition_function x gp acq origin n cost params xo args =
  (let? cost_eval := cost_of cost origin (promote x) params in
   let? g := goodness acq (promote x) gp n xo args in
   np_div (np_neg g) cost_eval).
Proof.
  apply evaluate_by_convention.
Qed.

(** C10: a position vector of rank 1 is scored as the batch of its single
    row. *)
Theorem C10_vector_as_single_row
    (x : nd F) (gp : GP F) (acq : acquisition F) (origin : option (nd F))
    (n : pyobj F) (cost : pyobj F) (params : pydata F)
    (xo : option (nd F)) (args : pydata F) :
  ndim x = 1 ->
  evaluate_acquisition_function x gp acq origin n cost params xo args =
  evaluate_acquisition_function (Ar [x]) gp acq origin n cost params xo args.
Proof.
  intros H. unfold evaluate_acquisition_function.
  rewrite (promote_rank1 x H), (promote_row x H). reflexivity.
Qed.

End EvaluatorFacts.

Section UnknownStrings.

Context {F : Type} {NP : Numpy F} {SV : Solvers F}.

Lemma not_listed (l : list string) (k s : string) :
  ~ In k l -> In s l -> String.eqb k s = false.
Proof.
  intros Hk Hs. apply String.eqb_neq. intros ->. contradiction.
Qed.

Lemma unknown_kind_raises (kind : string) (x : nd F) (gp : GP F)
    (n : pyobj F) (xo : option (nd F)) (args : pydata F) :
  ~ In kind kinds ->
  evaluate_gp_acquisition_function x (AcqKind kind) gp n xo args
  = Raise no_valid_string.
Proof.
  intros H. unfold evaluate_gp_acquisition_function. cbn [acq_eq].
  rewrite !(@not_listed kinds kind _ H) by (simpl; tauto).
  destruct xo; reflexivity.
Qed.

Lemma unknown_method_raises (gp : GP F) (acq : acquisition F)
    (origin : option (nd F)) (m : Z) (bounds : nd F) (kw : kwargs F)
    (l : list log_entry) :
  ~ In (optimization_method kw) methods ->
  candidate_set kw = [] ->
  find_acquisition_function_maxima gp acq origin m bounds kw l
  = (Raise invalid_method, l).
Proof.
  intros H Hc.
  unfold find_acquisition_function_maxima, method_chain, bind.
  rewrite Hc.
  rewrite !(@not_listed methods (optimization_method kw) _ H)
    by (simpl; tauto).
  reflexivity.
Qed.

Lemma candidate_set_raises (gp : GP F) (acq : acquisition F)
    (origin : option (nd F)) (m : Z) (bounds : nd F) (kw : kwargs F)
    (l : list log_entry) :
  candidate_set kw <> [] ->
  find_acquisition_function_maxima gp acq origin m bounds kw l
  = (Raise (UnboundLocalError "a"), l).
Proof.
  intros Hc.
  unfold find_acquisition_function_maxima, method_chain, bind.
  destruct (candidate_set kw); [contradiction | reflexivity].
Qed.

(** C7: a kind string outside the built-in kinds makes the evaluation raise
    (no score comes back), and a method string outside the known methods
    makes the dispatcher raise. *)
Theorem C7_unknown_strings_are_fatal
    (kind : string) (kw : kwargs F)
    (x : nd F) (gp : GP F) (origin : option (nd F)) (n : pyobj F)
    (cost : pyobj F) (params : pydata F) (xo : option (nd F))
    (args : pydata F)
    (acq : acquisition F) (m : Z) (bounds : nd F) (l : list log_entry) :
  ~ In kind kinds ->
  ~ In (optimization_method kw) methods ->
  evaluate_gp_acquisition_function x (AcqKind kind) gp n xo args
    = Raise no_valid_string
  /\ evaluate_acquisition_function x gp (AcqKind kind) origin n cost params
       xo args
     = (let? cost_eval := cost_of cost origin (promote x) params in
        Raise no_valid_string)
  /\ is_ok (evaluate_acquisition_function x gp (AcqKind kind) origin n cost
              params xo args) = false
  /\ exists e,
       fst (find_acquisition_function_maxima gp acq origin m bounds kw l)
         = Raise e
       /\ (candidate_set kw = [] -> e = invalid_method).
Proof.
  intros Hk Hm.
  assert (E : evaluate_acquisition_function x gp (AcqKind kind) origin n cost
                params xo args
              = (let? cost_eval := cost_of cost origin (promote x) params in
                 Raise no_valid_string)).
  { rewrite evaluate_by_convention. unfold goodness.
    rewrite unknown_kind_raises by assumption.
    destruct (cost_of cost origin (promote x) params); reflexivity. }
  split; [apply unknown_kind_raises; assumption|].
  split; [exact E|].
  split.
  - rewrite E. destruct (cost_of cost origin (promote x) params); reflexivity.
  - destruct (candidate_set kw) as [|c cs] eqn:Hc.
    + exists invalid_method. split; [|reflexivity].
      rewrite unknown_method_raises by assumption. reflexivity.
    + exists (UnboundLocalError "a"). split; [|discriminate].
      rewrite candidate_set_raises; [reflexivity|].
      rewrite Hc. discriminate.
Qed.

End UnknownStrings.

(** * The dispatcher *)

Section DispatcherFacts.

Context {F : Type} {NP : Numpy F} {SV : Solvers F}.


Lemma shape_check_aborts (opti fe : nd F) (obj : option (HGDL_obj F))
    (l : list log_entry) :
  ndim fe <> 1 \/ ndim opti <> 2 ->
  shape_check opti fe obj l
  = (Raise (PyException shape_message),
     (l ++ [Error "f(x): "; Error "x: "])%list).
Proof.
  intros H. unfold shape_check.
  assert (E : negb (ndim fe =? 1) || negb (ndim opti =? 2) = true).
  { destruct H as [H|H]; apply Z.eqb_neq in H; rewrite H;
      [reflexivity | apply orb_true_r]. }
  rewrite E. unfold bind, log, raise. cbn.
  rewrite <- app_assoc. reflexivity.
Qed.



(** The local branch when the solver reports no success: the candidate is
    the starting point, scored by a call in which [cost_function] stands
    where [number_of_maxima_sought] is expected and
    [cost_function_parameters] where [cost_function] is. *)
Lemma local_fallback (gp : GP F) (acq : acquisition F)
    (origin : option (nd F)) (m : Z) (bounds : nd F) (kw : kwargs F)
    (l : list log_entry) (x0 : nd F) (a : OptimizeResult F) :
  candidate_set kw = [] ->
  optimization_method kw = "local" ->
  local_x0 bounds (optimization_x0 kw) = Ok x0 ->
  minimize
    (fun x => evaluate_acquisition_function x gp acq origin (Data (PyInt m))
                (cost_function kw) (cost_function_parameters kw)
                (x_out kw) (args kw))
    x0
    (fun x => gradient x
       (fun x => evaluate_acquisition_function x gp acq origin
                   (Data (PyInt m)) (cost_function kw)
                   (cost_function_parameters kw) (x_out kw) (args kw)))
    bounds (constraints kw) (optimization_tol kw) (optimization_max_iter kw)
  = Ok a ->
  res_success a = false ->
  method_chain gp acq origin m bounds kw l
  = match evaluate_acquisition_function x0 gp acq origin (cost_function kw)
            (Data (cost_function_parameters kw)) PyNone None PyNone with
    | Ok fe =>
        (Ok (Fell_through
               (if negb (ndim x0 =? 2) then Ar [x0] else x0,
                if negb (ndim fe =? 1) then Ar [fe] else fe,
                None)),
         (l ++ [Warning local_warning])%list)
    | Raise e => (Raise e, (l ++ [Warning local_warning])%list)
    end.
Proof.
  intros Hc Hm Hx Ha Hs. unfold method_chain. rewrite Hc, Hm. cbn [String.eqb].
  change (String.eqb "local" "global") with false.
  change (String.eqb "local" "hgdl") with false.
  change (String.eqb "local" "hgdlAsync") with false.
  change (String.eqb "local" "local") with true. cbv iota.
  unfold bind, lift, log, ret. rewrite Hx, Ha, Hs. cbn [negb].
  destruct (evaluate_acquisition_function x0 gp acq origin (cost_function kw)
              (Data (cost_function_parameters kw)) PyNone None PyNone);
    reflexivity.
Qed.




(** C8, as the code has it: with a non-empty candidate set the dispatcher
    reads its local [a] before any assignment to it and raises; no candidate
    is scored and nothing is returned. *)
Theorem C8_candidate_set_raises (gp : GP F) (acq : acquisition F)
    (origin : option (nd F)) (m : Z) (bounds : nd F) (kw : kwargs F)
    (l : list log_entry) :
  candidate_set kw <> [] ->
  find_acquisition_function_maxima gp acq origin m bounds kw l
  = (Raise (UnboundLocalError "a"), l).
Proof.
  apply candidate_set_raises.
Qed.

End DispatcherFacts.

(** * Training and the loop *)

Section ExperimenterFacts.

Import Experimenter.

Context {F : Type} {NP : Numpy F}.





Ltac run_methods :=
  unfold kill_training, train_async, update_hps, train, new_client,
    train_gp_async, stop_async_train, set_async_train_in_progress,
    set_opt_obj, set_training_dask_client, emit, attribute,
    bind, get, modify, lift, ret; cbn.

Lemma coherent_at_most_one (s : experimenter F) :
  coherent s -> (List.length (live_trainings s) <= 1)%nat.
Proof.
  unfold coherent. destruct (async_train_in_progress s).
  - intros (h & _ & ->). cbn. lia.
  - intros ->. cbn. lia.
Qed.

Lemma kill_training_stops (s : experimenter F) :
  coherent s ->
  exists s', kill_training s = (Ok tt, s')
             /\ async_train_in_progress s' = false
             /\ live_trainings s' = [].
Proof.
  destruct s as [a o t ac x live f tr]. unfold coherent. cbn.
  destruct a.
  - intros (h & -> & ->). eexists. run_methods.
    rewrite Nat.eqb_refl. cbn. repeat split.
  - intros ->. eexists. run_methods. repeat split.
Qed.

Lemma train_async_when_idle (s : experimenter F) (m : Z)
    (c : option client) :
  async_train_in_progress s = false -> live_trainings s = [] ->
  exists s', train_async m c s = (Ok tt, s') /\ coherent s'.
Proof.
  destruct s as [a o t ac x live f tr]. cbn. intros -> ->.
  destruct c; eexists; run_methods; (split; [reflexivity|]);
    unfold coherent; cbn; eauto.
Qed.

Lemma update_hps_keeps (s : experimenter F) :
  coherent s -> exists s', update_hps s = (Ok tt, s') /\ coherent s'.
Proof.
  destruct s as [a o t ac x live f tr]. unfold coherent. cbn.
  destruct a.
  - intros (h & -> & ->). eexists. run_methods.
    split; [reflexivity|]. unfold coherent. cbn. eauto.
  - intros ->. eexists. run_methods. split; [reflexivity|].
    unfold coherent. cbn. reflexivity.
Qed.

Lemma train_keeps (s : experimenter F) (p : Z) (t : F) (m : Z)
    (method : string) :
  coherent s -> exists s', train p t m method s = (Ok tt, s') /\ coherent s'.
Proof.
  destruct s as [a o tc ac x live f tr]. intros H. eexists. run_methods.
  split; [reflexivity | exact H].
Qed.

(** Every action of the retraining step succeeds and keeps the account of
    the running trainings; after the asynchronous one a training runs. *)
Lemma perform_keeps (kw : go_kwargs F) (a : action) (s : experimenter F) :
  coherent s ->
  exists s', perform kw a s = (Ok tt, s')
             /\ coherent s'
             /\ (a = Async -> async_train_in_progress s' = true).
Proof.
  destruct s as [fl o tc ac x live f tr]. unfold coherent. cbn.
  destruct a; unfold perform.
  - destruct fl.
    + intros (h & -> & ->).
      destruct tc; eexists; run_methods; rewrite Nat.eqb_refl; cbn;
        (split; [reflexivity|]); unfold coherent; cbn; eauto.
    + intros ->.
      destruct tc; eexists; run_methods;
        (split; [reflexivity|]); unfold coherent; cbn; eauto.
  - destruct fl.
    + intros (h & -> & ->). eexists. run_methods. rewrite Nat.eqb_refl. cbn.
      split; [reflexivity|]. unfold coherent. cbn.
      split; [reflexivity | discriminate].
    + intros ->. eexists. run_methods. split; [reflexivity|].
      unfold coherent. cbn. split; [reflexivity | discriminate].
  - destruct fl.
    + intros (h & -> & ->). eexists. run_methods. rewrite Nat.eqb_refl. cbn.
      split; [reflexivity|]. unfold coherent. cbn.
      split; [reflexivity | discriminate].
    + intros ->. eexists. run_methods. split; [reflexivity|].
      unfold coherent. cbn. split; [reflexivity | discriminate].
  - destruct fl.
    + intros (h & -> & ->). eexists. run_methods. split; [reflexivity|].
      unfold coherent. cbn. split; [eauto | discriminate].
    + intros ->. eexists. run_methods. split; [reflexivity|].
      unfold coherent. cbn. split; [reflexivity | discriminate].
Qed.

Lemma run_calls_cons (c : call F) (cs : list (call F))
    (s s' : experimenter F) :
  run_call c s = (Ok tt, s') -> run_calls (c :: cs) s = run_calls cs s'.
Proof.
  intros H. cbn [run_calls]. unfold bind. rewrite H. reflexivity.
Qed.

Lemma disciplined_calls_keep (n : nat) :
  forall (cs : list (call F)) (s : experimenter F),
    (List.length cs <= n)%nat ->
    coherent s ->
    kill_before_train_async cs = true ->
    exists s', run_calls cs s = (Ok tt, s') /\ coherent s'.
Proof.
  induction n as [|n IH]; intros cs s Hn Hs Hd.
  - destruct cs; [|cbn in Hn; lia]. exists s. split; [reflexivity | exact Hs].
  - destruct cs as [|c cs]; [exists s; split; [reflexivity | exact Hs]|].
    cbn [List.length] in Hn.
    destruct c as [m c| | |p t m method].
    + cbn in Hd. discriminate.
    + destruct (@kill_training_stops s Hs) as (s1 & Hk & Hflag & Hlive).
      rewrite (@run_calls_cons (@CallKillTraining F) cs _ _ Hk).
      destruct cs as [|c' cs'].
      * exists s1. split; [reflexivity|].
        unfold coherent. rewrite Hflag. exact Hlive.
      * destruct c' as [m c| | |p t m method].
        -- destruct (@train_async_when_idle s1 m c Hflag Hlive)
             as (s2 & Ht & Hs2).
           rewrite (@run_calls_cons (@CallTrainAsync F m c) cs' _ _ Ht).
           cbn [List.length] in Hn. apply IH; [lia | exact Hs2 | exact Hd].
        -- apply IH; [lia | | exact Hd].
           unfold coherent. rewrite Hflag. exact Hlive.
        -- apply IH; [lia | | exact Hd].
           unfold coherent. rewrite Hflag. exact Hlive.
        -- apply IH; [lia | | exact Hd].
           unfold coherent. rewrite Hflag. exact Hlive.
    + destruct (@update_hps_keeps s Hs) as (s1 & Hu & Hs1).
      rewrite (@run_calls_cons (@CallUpdateHps F) cs _ _ Hu). apply IH; [lia | exact Hs1 | exact Hd].
    + destruct (@train_keeps s p t m method Hs) as (s1 & Ht & Hs1).
      rewrite (@run_calls_cons (CallTrain p t m method) cs _ _ Ht).
      apply IH; [lia | exact Hs1 | exact Hd].
Qed.

(** C5, as the code has it: [train_async] has no guard of its own; when every
    [train_async] comes directly after a [kill_training], as in [go], no call
    fails and at most one training is running afterwards. *)
Theorem C5_one_training_after_kill (cs : list (call F))
    (s : experimenter F) :
  coherent s ->
  kill_before_train_async cs = true ->
  exists s', run_calls cs s = (Ok tt, s')
             /\ coherent s'
             /\ (List.length (live_trainings s') <= 1)%nat.
Proof.
  intros Hs Hd.
  destruct (@disciplined_calls_keep _ cs s (Nat.le_refl _) Hs Hd)
    as (s' & Hr & Hs').
  exists s'. repeat split; [exact Hr | exact Hs' |].
  apply coherent_at_most_one. exact Hs'.
Qed.

Lemma iteration_method_forced (kw : go_kwargs F) (k : Z) :
  1 < number_of_suggested_measurements kw ->
  acq_func_opt_setting kw k <> "hgdl" ->
  iteration_method kw k = "global".
Proof.
  intros Hn Hm. unfold iteration_method.
  apply Z.ltb_lt in Hn. apply String.eqb_neq in Hm. rewrite Hn, Hm.
  reflexivity.
Qed.

Lemma prepare_ask_returns (kw : go_kwargs F) (v : loop_vars F)
    (s s' : experimenter F) (c : ask_call F) :
  prepare_ask kw v s = (Ok c, s') ->
  ask_method c = iteration_method kw (i v) /\ ask_tol c = tol v
  /\ ask_n c = number_of_suggested_measurements kw.
Proof.
  unfold prepare_ask, bind, get, lift, ret. intros H.
  destruct (list_get (x_data s) (-1)) as [pos|e]; [|discriminate].
  destruct (String.eqb (iteration_method kw (i v)) "hgdl").
  - destruct (acq_func_opt_dask_client s); cbn in H;
      inversion H; subst; cbn; auto.
  - cbn in H. inversion H; subst; cbn; auto.
Qed.

(** C6: when more than one measurement is to be suggested and the mapping
    from the iteration to the method does not answer ['hgdl'], the method in
    the arguments of this pass's [ask] is ['global']. *)
Theorem C6_several_suggestions_use_global
    (kw : go_kwargs F) (w : surroundings F) (v : loop_vars F)
    (s s' : experimenter F) (c : ask_call F) :
  1 < number_of_suggested_measurements kw ->
  acq_func_opt_setting kw (i v) <> "hgdl" ->
  prepare_ask kw v s = (Ok c, s') ->
  ask_method c = "global"
  /\ go_body kw w v s = after_ask kw w v c s'.
Proof.
  intros Hn Hm H. split.
  - destruct (prepare_ask_returns _ _ _ H) as (E & _).
    rewrite E. apply iteration_method_forced; assumption.
  - unfold go_body, bind. rewrite H. reflexivity.
Qed.

Ltac run_pass :=
  repeat match goal with
         | H : (_, _) = (_, _) |- _ => inversion H; subst; clear H
         | H : context [match ?c with _ => _ end] |- _ =>
             destruct c eqn:?; try discriminate
         end.

(** C9, as the code has it: when the adjust factor is a true value (not
    zero), the tolerance that the pass leaves for the next one is the
    absolute value of the first returned score times the factor; otherwise
    the tolerance stays as it was.  The next pass puts it in the arguments of
    its [ask]. *)
Theorem C9_tolerance_for_next_pass
    (kw : go_kwargs F) (w : surroundings F) (v v' : loop_vars F)
    (s s' : experimenter F) (b : bool) :
  go_body kw w v s = (Ok (b, v'), s') ->
  exists c s1 res,
    prepare_ask kw v s = (Ok c, s1)
    /\ w_ask w c = Ok res
    /\ (if float_truth (acq_func_opt_tol_adjust kw)
        then exists best,
               nd_get (ask_fx res) 0 = Ok best
               /\ np_mul (np_abs best) (Sc (acq_func_opt_tol_adjust kw))
                  = Ok (tol v')
        else tol v' = tol v)
    /\ (forall s2 c2 s3,
          prepare_ask kw v' s2 = (Ok c2, s3) -> ask_tol c2 = tol v').
Proof.
  intros H. unfold go_body, bind in H.
  destruct (prepare_ask kw v s) as [[c|e] s1] eqn:Hp; [|discriminate].
  exists c, s1.
  unfold after_ask, bind, lift in H.
  destruct (emit (EvAsk c) s1) as [[[]|e] s2]; [|discriminate].
  destruct (w_ask w c) as [res|e] eqn:Hw; [|discriminate].
  exists res. split; [reflexivity|]. split; [reflexivity|].
  destruct (w_error_below w) as [below|e]; [|discriminate].
  destruct (adjust_tolerance kw (ask_fx res) (tol v)) as [t|e] eqn:Ht;
    [|discriminate].
  assert (Hv : tol v' = t).
  { unfold ret, get in H. run_pass; reflexivity. }
  split.
  - unfold adjust_tolerance in Ht.
    destruct (float_truth (acq_func_opt_tol_adjust kw)).
    + unfold rbind in Ht.
      destruct (nd_get (ask_fx res) 0) as [best|e]; [|discriminate].
      exists best. split; [reflexivity|]. rewrite Hv. exact Ht.
    + inversion Ht. congruence.
  - intros sa c2 sb H2.
    destruct (prepare_ask_returns _ _ _ H2) as (_ & E & _). exact E.
Qed.





End ExperimenterFacts.

(** * The statements at concrete inputs *)

Section Examples.

Import Rational Fixture Experimenter.



(** C3 fails on the code.  A solver gives up at the starting point 1/2.
    With the parameters [{}] and an origin, the fallback calls the parameters
    as the cost function and raises.  With a cost function of 2 the fallback
    scores the starting point without the cost, -4, where the objective of
    the call is -2 there.  A solver that asks for the gradient never comes
    back: [gradient] raises. *)
Theorem C3_local_fallback_misses :
  dispatch minimize_gives_up variance (Some start)
    (with_cost (Data PyNone) (PyDict []) (with_x0 half (defaults "local")))
  = (Raise (TypeError "object is not callable"), [Warning local_warning])
  /\ dispatch minimize_gives_up variance (Some start)
       (with_cost cost_two PyNone (with_x0 half (defaults "local")))
     = (Ok (Ar [half], Ar [num (-4)], None), [Warning local_warning])
  /\ evaluate_acquisition_function half gp variance (Some start)
       (Data (PyInt 1)) cost_two PyNone None (PyDict [])
     = Ok (Ar [num (-2)])
  /\ dispatch minimize_with_gradient variance (Some start)
       (with_x0 half (defaults "local"))
     = (Raise (NameError "point"), []).
Proof.
  repeat split; vm_compute; reflexivity.
Qed.

(** C5 as stated fails: the second [train_async] is not prevented; it
    starts a second training without a [stop_async_train] for the first,
    whose handle is overwritten, and two trainings are running afterwards. *)
Lemma C5_second_train_async_runs_two :
  exists s',
    run_calls twice (fresh_experimenter [start]) = (Ok tt, s')
    /\ trace s' = [ EvNewClient 0%nat; EvTrainGpAsync 10 (Some 0%nat) 1%nat;
                    EvNewClient 2%nat; EvTrainGpAsync 10 (Some 2%nat) 3%nat ]
    /\ opt_obj s' = Some 3%nat
    /\ live_trainings s' = [3%nat; 1%nat]
    /\ ~ (List.length (live_trainings s') <= 1)%nat.
Proof.
  eexists. split; [vm_compute; reflexivity|].
  split; [reflexivity|]. split; [reflexivity|]. split; [reflexivity|].
  cbn. lia.
Qed.

Lemma C5_witness :
  coherent (fresh_experimenter [start])
  /\ kill_before_train_async restarts = true
  /\ exists s',
       run_calls restarts (fresh_experimenter [start]) = (Ok tt, s')
       /\ coherent s'
       /\ (List.length (live_trainings s') <= 1)%nat.
Proof.
  split; [reflexivity|]. split; [reflexivity|].
  apply (@C5_one_training_after_kill float restarts
           (fresh_experimenter [start])); reflexivity.
Defined.


(** In that pass the asynchronous retraining is the action: a client is
    created, no training was in progress, and one training runs
    afterwards. *)
Lemma pass_at_twenty_retrains_async
  : trace (snd (go_body go_async (answers (start :: twenty)) pass_at_twenty
            (fresh_experimenter twenty)))
    = [ EvAsk {| ask_position := start; ask_n := 2; ask_method := "global";
                 ask_pop_size := 20; ask_max_iter := 20;
                 ask_tol := num (1 # 1000000); ask_dask_client := None |};
        EvTell; EvNewClient 0%nat; EvTrainGpAsync 20 (Some 0%nat) 1%nat ]
    /\ live_trainings (snd (go_body go_async (answers (start :: twenty)) pass_at_twenty
            (fresh_experimenter twenty))) = [1%nat].
Proof.
  split; vm_compute; reflexivity.
Qed.

Lemma C6_witness :
  1 < number_of_suggested_measurements (go_defaults None)
  /\ acq_func_opt_setting (go_defaults None) (i first_pass) <> "hgdl"
  /\ prepare_ask (go_defaults None) first_pass (fresh_experimenter [start])
     = (Ok first_ask, fresh_experimenter [start])
  /\ ask_method first_ask = "global"
  /\ go_body (go_defaults None) (answers [start; half]) first_pass
       (fresh_experimenter [start])
     = after_ask (go_defaults None) (answers [start; half]) first_pass
         first_ask (fresh_experimenter [start]).
Proof.
  split; [reflexivity|]. split; [discriminate|]. split; [reflexivity|].
  apply (@C6_several_suggestions_use_global float numpy (go_defaults None)
           (answers [start; half]) first_pass (fresh_experimenter [start])
           (fresh_experimenter [start]) first_ask);
    [reflexivity | discriminate | reflexivity].
Defined.

Lemma C7_witness :
  ~ In "entropy" kinds
  /\ ~ In (optimization_method (defaults "simplex")) methods
  /\ evaluate_gp_acquisition_function half (AcqKind "entropy") gp
       (Data (PyInt 1)) None (PyDict [])
     = Raise no_valid_string
  /\ evaluate_acquisition_function half gp (AcqKind "entropy") (Some start)
       (Data (PyInt 1)) cost_two PyNone None (PyDict [])
     = (let? cost_eval := cost_of cost_two (Some start) (promote half) PyNone in
        Raise no_valid_string)
  /\ is_ok (evaluate_acquisition_function half gp (AcqKind "entropy")
              (Some start) (Data (PyInt 1)) cost_two PyNone None (PyDict []))
     = false
  /\ exists e,
       fst (dispatch minimize_gives_up variance (Some start)
              (defaults "simplex")) = Raise e
       /\ (candidate_set (defaults "simplex") = [] -> e = invalid_method).
Proof.
  assert (Hk : ~ In "entropy" kinds) by (cbn; intuition discriminate).
  assert (Hm : ~ In (optimization_method (defaults "simplex")) methods)
    by (cbn; intuition discriminate).
  split; [exact Hk|]. split; [exact Hm|].
  exact (@C7_unknown_strings_are_fatal float numpy (solvers minimize_gives_up)
           "entropy" (defaults "simplex") half gp (Some start)
           (Data (PyInt 1)) cost_two PyNone None (PyDict []) variance 1
           unit_box [] Hk Hm).
Defined.

Lemma C8_witness :
  candidate_set (with_candidates [half] (defaults "global")) <> []
  /\ dispatch minimize_gives_up variance (Some start)
       (with_candidates [half] (defaults "global"))
     = (Raise (UnboundLocalError "a"), []).
Proof.
  assert (H : candidate_set (with_candidates [half] (defaults "global")) <> [])
    by discriminate.
  split; [exact H|].
  exact (@C8_candidate_set_raises float numpy (solvers minimize_gives_up)
           gp variance (Some start) 1 unit_box
           (with_candidates [half] (defaults "global")) [] H).
Defined.

(** C9 as stated fails for the factor 0: the score is -5, its absolute value
    times the factor is 0, and the tolerance stays 1e-6. *)
Lemma C9_zero_factor_keeps_tolerance :
  exists v' s',
    go_body (go_defaults (Some 0%Q)) (answers [start; half]) first_pass
      (fresh_experimenter [start]) = (Ok (false, v'), s')
    /\ nd_get (ask_fx {| ask_x := Ar [half]; ask_fx := Ar [num (-5)];
                         ask_opt_obj := None |}) 0 = Ok (num (-5))
    /\ np_mul (np_abs (num (-5))) (Sc (Some 0%Q)) = Ok (num 0)
    /\ tol v' = num (1 # 1000000)
    /\ tol v' <> num 0.
Proof.
  do 2 eexists. split; [vm_compute; reflexivity|].
  split; [reflexivity|]. split; [reflexivity|]. split; [reflexivity|].
  cbn. discriminate.
Qed.

Lemma C9_witness :
  go_body (go_defaults (Some (1 # 10)%Q)) (answers [start; half]) first_pass
    (fresh_experimenter [start])
  = (Ok (false, {| i := 1; n_measurements := 2; tol := num (1 # 2) |}),
     snd (go_body (go_defaults (Some (1 # 10)%Q)) (answers [start; half])
            first_pass (fresh_experimenter [start])))
  /\ exists c s1 res,
       prepare_ask (go_defaults (Some (1 # 10)%Q)) first_pass
         (fresh_experimenter [start]) = (Ok c, s1)
       /\ w_ask (answers [start; half]) c = Ok res
       /\ (if float_truth (acq_func_opt_tol_adjust
                             (go_defaults (Some (1 # 10)%Q)))
           then exists best,
                  nd_get (ask_fx res) 0 = Ok best
                  /\ np_mul (np_abs best)
                       (Sc (acq_func_opt_tol_adjust
                              (go_defaults (Some (1 # 10)%Q))))
                     = Ok (num (1 # 2))
           else num (1 # 2) = tol first_pass)
       /\ (forall s2 c2 s3,
             prepare_ask (go_defaults (Some (1 # 10)%Q))
               {| i := 1; n_measurements := 2; tol := num (1 # 2) |} s2
             = (Ok c2, s3) ->
             ask_tol c2 = num (1 # 2)).
Proof.
  split; [reflexivity|].
  exact (@C9_tolerance_for_next_pass float numpy
           (go_defaults (Some (1 # 10)%Q)) (answers [start; half]) first_pass
           {| i := 1; n_measurements := 2; tol := num (1 # 2) |}
           (fresh_experimenter [start]) _ false eq_refl).
Defined.

Lemma C10_witness :
  ndim half = 1
  /\ evaluate_acquisition_function half gp variance (Some start)
       (Data (PyInt 1)) cost_two PyNone None (PyDict [])
     = evaluate_acquisition_function (Ar [half]) gp variance (Some start)
         (Data (PyInt 1)) cost_two PyNone None (PyDict []).
Proof.
  split; [reflexivity|].
  apply (@C10_vector_as_single_row float numpy half gp variance (Some start)
           (Data (PyInt 1)) cost_two PyNone None (PyDict [])).
  reflexivity.
Defined.

End Examples.

(** * More on the evaluator *)

Section EvaluatorEdges.

Context {F : Type} {NP : Numpy F}.

(** Without an origin the cost function and its parameters play no part:
    the score is the one without any cost function. *)
Theorem cost_needs_origin
    (x : nd F) (gp : GP F) (acq : acquisition F) (n : pyobj F)
    (cost : pyobj F) (params : pydata F) (xo : option (nd F))
    (args : pydata F) :
  evaluate_acquisition_function x gp acq None n cost params xo args
  = evaluate_acquisition_function x gp acq None n (Data PyNone) PyNone xo
      args.
Proof.
  rewrite !evaluate_by_convention. unfold cost_of.
  destruct cost as [[| |]|]; reflexivity.
Qed.

(** With an origin, a cost function that is neither [None] nor callable
    makes the evaluation raise a [TypeError], whatever the acquisition
    function is: the cost comes first. *)
Theorem cost_not_callable
    (x : nd F) (gp : GP F) (acq : acquisition F) (o : nd F) (n : pyobj F)
    (d : pydata F) (params : pydata F) (xo : option (nd F))
    (args : pydata F) :
  d <> PyNone ->
  evaluate_acquisition_function x gp acq (Some o) n (Data d) params xo args
  = Raise (TypeError "object is not callable").
Proof.
  intros Hd. unfold evaluate_acquisition_function.
  destruct d; [contradiction | reflexivity | reflexivity].
Qed.

(** With output positions only four kinds are known: every other kind,
    the other built-in ones included, raises. *)
Theorem x_out_knows_four_kinds
    (kind : string) (x xo : nd F) (gp : GP F) (n : pyobj F)
    (args : pydata F) :
  ~ In kind kinds_x_out ->
  evaluate_gp_acquisition_function x (AcqKind kind) gp n (Some xo) args
  = Raise no_valid_string.
Proof.
  intros H. unfold evaluate_gp_acquisition_function. cbn [acq_eq].
  rewrite !(@not_listed kinds_x_out kind _ H) by (simpl; tauto).
  reflexivity.
Qed.

(** The ['target probability'] kind reads [args["a"]] and [args["b"]]
    before anything else: arguments that are no dictionary raise a
    [TypeError], a missing key a [KeyError] that names it. *)
Theorem target_probability_needs_bounds
    (x : nd F) (gp : GP F) (n : pyobj F) (args : pydata F) :
  match args with
  | PyDict d =>
      match assoc "a" d, assoc "b" d with
      | None, _ =>
          evaluate_gp_acquisition_function x (AcqKind "target probability")
            gp n None args = Raise (KeyError "a")
      | Some _, None =>
          evaluate_gp_acquisition_function x (AcqKind "target probability")
            gp n None args = Raise (KeyError "b")
      | Some _, Some _ => True
      end
  | _ =>
      evaluate_gp_acquisition_function x (AcqKind "target probability")
        gp n None args = Raise (TypeError "object is not subscriptable")
  end.
Proof.
  unfold evaluate_gp_acquisition_function. cbn [acq_eq].
  destruct args as [| k | d]; cbn; try reflexivity.
  destruct (assoc "a" d); [|reflexivity].
  destruct (assoc "b" d); [exact I | reflexivity].
Qed.

(** After the promotion a batch never has rank 1, and promoting twice is
    promoting once. *)
Theorem promote_leaves_no_vector (x : nd F) :
  ndim (promote x) <> 1 /\ promote (promote x) = promote x.
Proof.
  assert (H : ndim (promote x) <> 1).
  { unfold promote. destruct (ndim x =? 1) eqn:E.
    - apply Z.eqb_eq in E. unfold np_array1. cbn [ndim]. lia.
    - apply Z.eqb_neq in E. exact E. }
  split; [exact H|].
  apply Z.eqb_neq in H. unfold promote at 1. rewrite H. reflexivity.
Qed.

End EvaluatorEdges.

(** * More on the dispatcher *)

Section DispatcherEdges.

Context {F : Type} {NP : Numpy F} {SV : Solvers F}.

Lemma shape_check_accepts (opti fe : nd F) (obj : option (HGDL_obj F))
    (l : list log_entry) :
  ndim fe = 1 -> ndim opti = 2 ->
  shape_check opti fe obj l = (Ok (opti, fe, obj), l).
Proof.
  intros Hf Ho. unfold shape_check. rewrite Hf, Ho. reflexivity.
Qed.

Lemma ndim_cons (x : nd F) (l : list (nd F)) :
  ndim (Ar (x :: l)) = 1 + ndim x.
Proof.
  reflexivity.
Qed.

Lemma slice_to_min {A : Type} (l : list A) (n : Z) :
  slice_to l (Z.min (Z.of_nat (List.length l)) n)
  = firstn (kept (Z.of_nat (List.length l)) n) l.
Proof.
  unfold slice_to, kept.
  destruct (n <? 0) eqn:En.
  - apply Z.ltb_lt in En.
    assert (E : Z.min (Z.of_nat (List.length l)) n = n) by lia.
    rewrite E. apply Z.ltb_lt in En. rewrite En. reflexivity.
  - apply Z.ltb_ge in En.
    assert (E : (Z.min (Z.of_nat (List.length l)) n <? 0) = false)
      by (apply Z.ltb_ge; lia).
    rewrite E. f_equal. lia.
Qed.

(** The global method hands back what the solver found: one row, the
    solver's point, and one score, the solver's value; nothing is logged and
    no handle is returned.  A point that is no vector of numbers or a value
    that is no number ends in an exception. *)
Theorem global_returns_solver_point
    (gp : GP F) (acq : acquisition F) (origin : option (nd F)) (m : Z)
    (bounds : nd F) (kw : kwargs F) (l : list log_entry)
    (res : OptimizeResult F) :
  candidate_set kw = [] ->
  optimization_method kw = "global" ->
  devo (fun x => acq_function_vectorization_wrapper x
                   (acquisition_objective gp acq origin m kw) (vectorized kw))
       bounds (optimization_tol kw) (optimization_x0 kw)
       (optimization_max_iter kw) (optimization_pop_size kw) (info kw)
       (constraints kw) (vectorized kw) = Ok res ->
  match res_x res with
  | Sc _ =>
      find_acquisition_function_maxima gp acq origin m bounds kw l
      = (Raise (TypeError "iteration over a 0-d array"), l)
  | Ar xs =>
      if (ndim (Ar xs) =? 1) && (ndim (res_fun res) =? 0) then
        find_acquisition_function_maxima gp acq origin m bounds kw l
        = (Ok (Ar [Ar xs], Ar [res_fun res], None), l)
      else
        find_acquisition_function_maxima gp acq origin m bounds kw l
        = (Raise (PyException shape_message),
           (l ++ [Error "f(x): "; Error "x: "])%list)
  end.
Proof.
  intros Hc Hm Hd. unfold acquisition_objective in Hd.
  unfold find_acquisition_function_maxima, method_chain.
  rewrite Hc, Hm. change (String.eqb "global" "global") with true. cbv iota.
  unfold bind, lift, ret, differential_evolution, rbind.
  rewrite Hd.
  destruct (res_x res) as [v|xs] eqn:Hx; cbn [py_list]; [reflexivity|].
  cbn [fst snd map].
  destruct ((ndim (Ar xs) =? 1) && (ndim (res_fun res) =? 0)) eqn:E.
  - apply andb_true_iff in E. destruct E as [E1 E2].
    apply Z.eqb_eq in E1, E2.
    apply shape_check_accepts; rewrite ndim_cons; lia.
  - apply shape_check_aborts. apply andb_false_iff in E.
    destruct E as [E|E]; apply Z.eqb_neq in E; [right | left];
      rewrite ndim_cons; lia.
Qed.

Lemma hgdl_result
    (gp : GP F) (acq : acquisition F) (origin : option (nd F)) (m : Z)
    (bounds : nd F) (kw : kwargs F) (l l1 : list log_entry)
    (obj : HGDL_obj F) (es : list (hgdl_entry F)) :
  candidate_set kw = [] ->
  optimization_method kw = "hgdl" ->
  hgdl_start (acquisition_objective gp acq origin m kw)
    (acquisition_gradient gp acq origin m kw) bounds kw l = (Ok obj, l1) ->
  hgdl_get_final obj = Ok es ->
  hgdl_cancel_tasks obj = Ok tt ->
  find_acquisition_function_maxima gp acq origin m bounds kw l
  = shape_check
      (Ar (map (@entry_x F) (firstn (kept (Z.of_nat (List.length es)) m) es)))
      (Ar (map (@entry_fx F) (firstn (kept (Z.of_nat (List.length es)) m) es)))
      (Some obj) l1.
Proof.
  intros Hc Hm Hs Hf Hk.
  unfold acquisition_gradient, acquisition_objective in Hs.
  unfold find_acquisition_function_maxima, method_chain.
  rewrite Hc, Hm. change (String.eqb "hgdl" "global") with false.
  change (String.eqb "hgdl" "hgdl") with true. cbv iota.
  unfold bind, lift. rewrite Hs, Hf, Hk. cbn [ret].
  rewrite slice_to_min. reflexivity.
Qed.

(** The blocking HGDL method keeps the first optima of [get_final()], as
    many as [res[0:min(len(res), number_of_maxima_sought)]] selects: at most
    the number sought, and for a negative number all but that many at the
    end.  Rows and scores come from the same optima. *)
Theorem hgdl_keeps_first_optima
    (gp : GP F) (acq : acquisition F) (origin : option (nd F)) (m : Z)
    (bounds : nd F) (kw : kwargs F) (l l1 : list log_entry)
    (obj : HGDL_obj F) (es : list (hgdl_entry F)) :
  candidate_set kw = [] ->
  optimization_method kw = "hgdl" ->
  hgdl_start (acquisition_objective gp acq origin m kw)
    (acquisition_gradient gp acq origin m kw) bounds kw l = (Ok obj, l1) ->
  hgdl_get_final obj = Ok es ->
  hgdl_cancel_tasks obj = Ok tt ->
  find_acquisition_function_maxima gp acq origin m bounds kw l
  = shape_check
      (Ar (map (@entry_x F) (firstn (kept (Z.of_nat (List.length es)) m) es)))
      (Ar (map (@entry_fx F) (firstn (kept (Z.of_nat (List.length es)) m) es)))
      (Some obj) l1
  /\ (0 <= m ->
      Z.of_nat (List.length (firstn (kept (Z.of_nat (List.length es)) m) es))
      <= m).
Proof.
  intros Hc Hm Hs Hf Hk. split.
  - apply hgdl_result; assumption.
  - intros H0. rewrite length_firstn. unfold kept.
    apply Z.ltb_ge in H0. rewrite H0. lia.
Qed.

(** When HGDL finds no optimum, or none is sought, the blocking HGDL method
    aborts with the shape exception: the empty array of positions has
    rank 1. *)
Theorem hgdl_without_optima_aborts
    (gp : GP F) (acq : acquisition F) (origin : option (nd F)) (m : Z)
    (bounds : nd F) (kw : kwargs F) (l l1 : list log_entry)
    (obj : HGDL_obj F) (es : list (hgdl_entry F)) :
  candidate_set kw = [] ->
  optimization_method kw = "hgdl" ->
  hgdl_start (acquisition_objective gp acq origin m kw)
    (acquisition_gradient gp acq origin m kw) bounds kw l = (Ok obj, l1) ->
  hgdl_get_final obj = Ok es ->
  hgdl_cancel_tasks obj = Ok tt ->
  es = [] \/ m = 0 ->
  find_acquisition_function_maxima gp acq origin m bounds kw l
  = (Raise (PyException shape_message),
     (l1 ++ [Error "f(x): "; Error "x: "])%list).
Proof.
  intros Hc Hm Hs Hf Hk He.
  rewrite (@hgdl_result gp acq origin m bounds kw l l1 obj es Hc Hm Hs Hf Hk).
  assert (N0 : firstn (kept (Z.of_nat (List.length es)) m) es = []).
  { destruct He as [-> | ->]; [apply firstn_nil|].
    unfold kept. cbn. rewrite Z.min_r by lia. reflexivity. }
  rewrite N0. apply shape_check_aborts. right. cbn. lia.
Qed.

(** A starting point of rank 1 is used as it is given, and of one of
    rank 2 with a first row that row is used: the local method then starts
    from a vector and draws no random point.  (An array of rank 2 without
    rows, where [optimization_x0[0]] raises, has no value in [nd] and is not
    covered.) *)
Theorem local_x0_given (bounds a row : nd F) (rest : list (nd F)) :
  ndim a = 1 \/ (a = Ar (row :: rest) /\ ndim a = 2) ->
  exists x0,
    local_x0 bounds (Some a) = Ok x0
    /\ ndim x0 = 1
    /\ (ndim a = 1 -> x0 = a)
    /\ (ndim a = 2 -> x0 = row /\ nd_get a 0 = Ok x0).
Proof.
  intros [H|[-> H]]; unfold local_x0.
  - exists a. rewrite H. cbn. repeat split; auto; lia.
  - rewrite H. cbn [Z.eqb Pos.eqb].
    exists row. rewrite ndim_cons in H. cbn.
    repeat split; auto; lia.
Qed.

Lemma local_result
    (gp : GP F) (acq : acquisition F) (origin : option (nd F)) (m : Z)
    (bounds : nd F) (kw : kwargs F) (l : list log_entry) (x0 : nd F)
    (a : OptimizeResult F) :
  candidate_set kw = [] ->
  optimization_method kw = "local" ->
  local_x0 bounds (optimization_x0 kw) = Ok x0 ->
  minimize (acquisition_objective gp acq origin m kw) x0
    (acquisition_gradient gp acq origin m kw) bounds (constraints kw)
    (optimization_tol kw) (optimization_max_iter kw) = Ok a ->
  find_acquisition_function_maxima gp acq origin m bounds kw l
  = if res_success a then
      shape_check (Ar [res_x a])
        (if ndim (res_fun a) =? 0 then Ar [res_fun a] else res_fun a)
        None l
    else
      match evaluate_acquisition_function x0 gp acq origin (cost_function kw)
              (Data (cost_function_parameters kw)) PyNone None PyNone with
      | Ok fe =>
          shape_check (if negb (ndim x0 =? 2) then Ar [x0] else x0)
            (if negb (ndim fe =? 1) then Ar [fe] else fe)
            None (l ++ [Warning local_warning])%list
      | Raise e => (Raise e, (l ++ [Warning local_warning])%list)
      end.
Proof.
  intros Hc Hm Hx Ha.
  unfold acquisition_gradient, acquisition_objective in Ha.
  unfold find_acquisition_function_maxima, method_chain.
  rewrite Hc, Hm.
  change (String.eqb "local" "global") with false.
  change (String.eqb "local" "hgdl") with false.
  change (String.eqb "local" "hgdlAsync") with false.
  change (String.eqb "local" "local") with true. cbv iota.
  unfold bind, lift, log, ret. rewrite Hx, Ha.
  destruct (res_success a); cbn [negb]; [reflexivity|].
  destruct (evaluate_acquisition_function x0 gp acq origin (cost_function kw)
              (Data (cost_function_parameters kw)) PyNone None PyNone);
    reflexivity.
Qed.

(** When the local solver reports success, the dispatcher returns the
    solver's point as the single row and the solver's value as the scores
    (a number becomes a one-element array); no warning is logged. *)
Theorem local_success_returns_solver_point
    (gp : GP F) (acq : acquisition F) (origin : option (nd F)) (m : Z)
    (bounds : nd F) (kw : kwargs F) (l : list log_entry) (x0 : nd F)
    (a : OptimizeResult F) :
  candidate_set kw = [] ->
  optimization_method kw = "local" ->
  local_x0 bounds (optimization_x0 kw) = Ok x0 ->
  minimize (acquisition_objective gp acq origin m kw) x0
    (acquisition_gradient gp acq origin m kw) bounds (constraints kw)
    (optimization_tol kw) (optimization_max_iter kw) = Ok a ->
  res_success a = true ->
  ndim (res_x a) = 1 ->
  ndim (res_fun a) = 0 \/ ndim (res_fun a) = 1 ->
  find_acquisition_function_maxima gp acq origin m bounds kw l
  = (Ok (Ar [res_x a],
         (if ndim (res_fun a) =? 0 then Ar [res_fun a] else res_fun a),
         None), l).
Proof.
  intros Hc Hm Hx Ha Hs Hr Hf.
  rewrite (@local_result gp acq origin m bounds kw l x0 a Hc Hm Hx Ha), Hs.
  apply shape_check_accepts.
  - destruct Hf as [Hf|Hf]; rewrite Hf; cbn [Z.eqb Pos.eqb]; [|exact Hf].
    rewrite ndim_cons. lia.
  - rewrite ndim_cons. lia.
Qed.

(** When the local solver reports no success and the evaluation at the
    starting point comes back, the returned positions are the starting
    vector as the single row, the scores are that evaluation (a number
    becomes a one-element array), and the warning is logged. *)
Theorem local_failure_returns_start
    (gp : GP F) (acq : acquisition F) (origin : option (nd F)) (m : Z)
    (bounds : nd F) (kw : kwargs F) (l : list log_entry) (x0 fe : nd F)
    (a : OptimizeResult F) :
  candidate_set kw = [] ->
  optimization_method kw = "local" ->
  local_x0 bounds (optimization_x0 kw) = Ok x0 ->
  minimize (acquisition_objective gp acq origin m kw) x0
    (acquisition_gradient gp acq origin m kw) bounds (constraints kw)
    (optimization_tol kw) (optimization_max_iter kw) = Ok a ->
  res_success a = false ->
  ndim x0 = 1 ->
  evaluate_acquisition_function x0 gp acq origin (cost_function kw)
    (Data (cost_function_parameters kw)) PyNone None PyNone = Ok fe ->
  ndim fe = 0 \/ ndim fe = 1 ->
  find_acquisition_function_maxima gp acq origin m bounds kw l
  = (Ok (Ar [x0], (if ndim fe =? 1 then fe else Ar [fe]), None),
     (l ++ [Warning local_warning])%list).
Proof.
  intros Hc Hm Hx Ha Hs H0 He Hf.
  rewrite (@local_result gp acq origin m bounds kw l x0 a Hc Hm Hx Ha), Hs, He.
  rewrite H0. cbn [Z.eqb Pos.eqb negb].
  destruct Hf as [Hf|Hf]; rewrite Hf; cbn [Z.eqb Pos.eqb negb];
    apply shape_check_accepts; rewrite ?ndim_cons; lia.
Qed.

(** The fallback of the local method passes neither [args] nor [x_out]
    on: for the ['target probability'] kind it raises a [TypeError] whenever
    no cost is evaluated on the way, whatever arguments the call was
    given. *)
Theorem local_failure_loses_args
    (gp : GP F) (origin : option (nd F)) (m : Z)
    (bounds : nd F) (kw : kwargs F) (l : list log_entry) (x0 : nd F)
    (a : OptimizeResult F) :
  candidate_set kw = [] ->
  optimization_method kw = "local" ->
  local_x0 bounds (optimization_x0 kw) = Ok x0 ->
  minimize
    (acquisition_objective gp (AcqKind "target probability") origin m kw) x0
    (acquisition_gradient gp (AcqKind "target probability") origin m kw)
    bounds (constraints kw) (optimization_tol kw) (optimization_max_iter kw)
  = Ok a ->
  res_success a = false ->
  origin = None \/ cost_function_parameters kw = PyNone ->
  find_acquisition_function_maxima gp (AcqKind "target probability") origin
    m bounds kw l
  = (Raise (TypeError "object is not subscriptable"),
     (l ++ [Warning local_warning])%list).
Proof.
  intros Hc Hm Hx Ha Hs Ho.
  rewrite (@local_result gp _ origin m bounds kw l x0 a Hc Hm Hx Ha), Hs.
  assert (E : evaluate_acquisition_function x0 gp
                (AcqKind "target probability") origin (cost_function kw)
                (Data (cost_function_parameters kw)) PyNone None PyNone
              = Raise (TypeError "object is not subscriptable")).
  { rewrite evaluate_by_convention. unfold cost_of, goodness.
    destruct Ho as [-> | ->].
    - destruct (cost_function_parameters kw); reflexivity.
    - destruct origin; reflexivity. }
  rewrite E. reflexivity.
Qed.

End DispatcherEdges.

(** * More on training *)

Section TrainingEdges.

Import Experimenter.

Context {F : Type}.

Ltac run_training :=
  unfold run_call, kill_training, train_async, update_hps, train, new_client,
    train_gp_async, stop_async_train, set_async_train_in_progress,
    set_opt_obj, set_training_dask_client, emit, attribute,
    bind, get, modify, lift, ret; cbn.

(** A [kill_training] that went through leaves nothing to kill: a second one
    changes nothing. *)
Theorem kill_training_idempotent (s s' : experimenter F) :
  kill_training s = (Ok tt, s') -> kill_training s' = (Ok tt, s').
Proof.
  destruct s as [fl o tc ac x live f tr].
  destruct fl; [destruct o as [h|]|]; run_training; intros H;
    inversion H; subst; reflexivity.
Qed.

Lemma run_call_safe (c : call F) (s : experimenter F) :
  flag_has_handle s ->
  exists s', run_call c s = (Ok tt, s') /\ flag_has_handle s'.
Proof.
  destruct s as [fl o tc ac x live f tr]. unfold flag_has_handle. cbn.
  intros H.
  destruct c as [m c| | |p t m method].
  - destruct c; eexists; run_training;
      (split; [reflexivity|]); cbn; discriminate.
  - destruct fl.
    + destruct o as [h|]; [|exfalso; apply H; reflexivity].
      eexists. run_training. split; [reflexivity|]. cbn. discriminate.
    + eexists. run_training. split; [reflexivity | exact H].
  - destruct fl.
    + destruct o as [h|]; [|exfalso; apply H; reflexivity].
      eexists. run_training. split; [reflexivity | exact H].
    + eexists. run_training. split; [reflexivity | exact H].
  - eexists. run_training. split; [reflexivity | exact H].
Qed.

(** Whatever the order of [train_async], [kill_training], [update_hps] and
    [train], no call raises, as long as the object starts with a handle
    behind a set flag (as it does after [__init__], where the flag is not
    set). *)
Theorem training_calls_never_raise (cs : list (call F))
    (s : experimenter F) :
  flag_has_handle s ->
  exists s', run_calls cs s = (Ok tt, s') /\ flag_has_handle s'.
Proof.
  revert s. induction cs as [|c cs IH]; intros s H.
  - exists s. split; [reflexivity | exact H].
  - destruct (@run_call_safe c s H) as (s1 & Hc & H1).
    destruct (IH s1 H1) as (s2 & Hr & H2).
    exists s2. split; [|exact H2].
    cbn [run_calls]. unfold bind. rewrite Hc. exact Hr.
Qed.

Lemma train_async_adds_one (m : Z) (c : option client)
    (s : experimenter F) :
  exists s', train_async m c s = (Ok tt, s')
             /\ List.length (live_trainings s')
                = S (List.length (live_trainings s)).
Proof.
  destruct s as [fl o tc ac x live f tr].
  destruct c; eexists; run_training; split; reflexivity.
Qed.

(** [train_async] never stops a training: [n] calls in a row leave [n] more
    trainings running than before. *)
Theorem train_async_accumulates (n : nat) (m : Z) (c : option client)
    (s : experimenter F) :
  exists s',
    run_calls (repeat (CallTrainAsync m c) n) s = (Ok tt, s')
    /\ List.length (live_trainings s')
       = (List.length (live_trainings s) + n)%nat.
Proof.
  revert s. induction n as [|n IH]; intros s.
  - exists s. split; [reflexivity | cbn; lia].
  - destruct (train_async_adds_one m c s) as (s1 & Ht & H1).
    destruct (IH s1) as (s2 & Hr & H2).
    exists s2. split.
    + cbn [repeat run_calls run_call]. unfold bind. rewrite Ht. exact Hr.
    + rewrite H2, H1. lia.
Qed.

Lemma filter_keeps_older (h : nat) (live : list handle) :
  (forall h', In h' live -> (h' < h)%nat) ->
  filter (fun h' => negb (Nat.eqb h' h)) live = live.
Proof.
  induction live as [|a live IH]; intros H; [reflexivity|].
  cbn [filter].
  assert (Ha : Nat.eqb a h = false).
  { apply Nat.eqb_neq. specialize (H a (or_introl eq_refl)). lia. }
  rewrite Ha. cbn [negb]. rewrite IH; [reflexivity|].
  intros h' Hh'. apply H. right. exact Hh'.
Qed.

(** [kill_training] stops the stored training only: after a [train_async]
    on top of running trainings and a [kill_training], the trainings that
    ran before are all still running, and the flag is not set. *)
Theorem kill_training_stops_stored_only (m : Z) (c : option client)
    (s : experimenter F) :
  handles_below_fresh s ->
  exists s1 s2,
    train_async m c s = (Ok tt, s1)
    /\ kill_training s1 = (Ok tt, s2)
    /\ live_trainings s2 = live_trainings s
    /\ async_train_in_progress s2 = false.
Proof.
  destruct s as [fl o tc ac x live f tr]. unfold handles_below_fresh. cbn.
  intros H.
  destruct c; do 2 eexists;
    (split; [run_training; reflexivity|]);
    (split; [run_training; rewrite Nat.eqb_refl; cbn; reflexivity|]);
    cbn; (split; [|reflexivity]); apply filter_keeps_older;
    intros h' Hh'; specialize (H h' Hh'); lia.
Qed.

Lemma kill_all_clients_ok (s : experimenter F) :
  fst (kill_all_clients s) = Ok tt.
Proof.
  destruct s as [fl o tc ac x live f tr].
  destruct tc; [destruct ac|]; reflexivity.
Qed.

(** [kill_all_clients] never raises.  Without a training client it closes
    nothing, the client of the acquisition optimization included, and logs
    two errors. *)
Theorem kill_all_clients_without_training_client (s : experimenter F) :
  fst (kill_all_clients s) = Ok tt
  /\ (training_dask_client s = None ->
      trace (snd (kill_all_clients s))
      = (trace s
         ++ [ EvLog (Error "'NoneType' object has no attribute 'close'");
              EvLog (Error "Killing of the clients failed. Please do so manually before initializing a new one.") ])%list).
Proof.
  split; [apply kill_all_clients_ok|].
  destruct s as [fl o tc ac x live f tr]. cbn. intros ->.
  unfold kill_all_clients, bind, get, emit, modify. cbn.
  rewrite <- app_assoc. reflexivity.
Qed.

End TrainingEdges.

(** * More on the loop *)

Section LoopEdges.

Import Experimenter.

Context {F : Type} {NP : Numpy F}.

Ltac run_loop :=
  unfold retrain, kill_training, train_async, update_hps, train, new_client,
    train_gp_async, stop_async_train, set_async_train_in_progress,
    set_opt_obj, set_training_dask_client, set_acq_func_opt_dask_client,
    set_x_data, emit, attribute, bind, get, modify, lift, ret, raise.

Lemma any_in_empty (schedule : list Z) (lo hi : Z) :
  hi <= lo -> any_in schedule lo hi = false.
Proof.
  intros H. unfold any_in, py_range.
  replace (Z.to_nat (hi - lo)) with 0%nat by lia. reflexivity.
Qed.

(** When a pass brought no new measurement (the data set is not longer than
    before, as after cleaning), nothing is retrained: the step only polls
    the hyperparameters. *)
Theorem retrain_without_new_data_polls (kw : go_kwargs F) (lo : Z)
    (s : experimenter F) :
  Z.of_nat (List.length (x_data s)) <= lo ->
  retrain kw lo s = update_hps s.
Proof.
  intros H. unfold retrain, bind, get.
  rewrite !(any_in_empty _ H). reflexivity.
Qed.

Lemma retrain_keeps_x_data (kw : go_kwargs F) (lo : Z)
    (s s' : experimenter F) (r : result unit) :
  retrain kw lo s = (r, s') -> x_data s' = x_data s.
Proof.
  destruct s as [fl o tc ac x live f tr]. run_loop. cbn.
  repeat match goal with
         | |- context [if ?b then _ else _] => destruct b
         | |- context [match ?o with Some _ => _ | None => _ end] =>
             destruct o
         end;
    cbn; intros H; inversion H; reflexivity.
Qed.

(** A pass that goes on to the next one read the data set once after the
    instrument: the count of the next pass is the length of that data set
    and the iteration index is one more. *)
Lemma pass_counts (kw : go_kwargs F) (w : surroundings F)
    (v v' : loop_vars F) (s s' : experimenter F) :
  go_body kw w v s = (Ok (false, v'), s') ->
  exists xs,
    w_measured w = Ok xs
    /\ n_measurements v' = Z.of_nat (List.length xs)
    /\ i v' = i v + 1.
Proof.
  unfold go_body, after_ask. unfold bind at 1.
  destruct (prepare_ask kw v s) as [[c|e] s1]; [|discriminate].
  unfold bind at 1. destruct (emit (EvAsk c) s1) as [[[]|e] s2];
    [|discriminate].
  unfold bind at 1. unfold lift at 1.
  destruct (w_ask w c) as [res|e]; [|discriminate].
  unfold bind at 1. unfold lift at 1.
  destruct (w_error_below w) as [below|e]; [|discriminate].
  unfold bind at 1. unfold lift at 1.
  destruct (adjust_tolerance kw (ask_fx res) (tol v)) as [t|e];
    [|discriminate].
  unfold bind at 1. unfold lift at 1.
  destruct (w_measured w) as [xs|e]; [|discriminate].
  unfold bind at 1. unfold set_x_data at 1, modify at 1.
  unfold bind at 1. unfold emit at 1, modify at 1.
  unfold bind at 1.
  match goal with
  | |- context [retrain kw (n_measurements v) ?st] =>
      destruct (retrain kw (n_measurements v) st) as [[[]|e] s3] eqn:Hr;
        [apply retrain_keeps_x_data in Hr; cbn in Hr | discriminate]
  end.
  intros H. exists xs. split; [reflexivity|].
  unfold bind, emit, modify, ret, raise, get in H.
  destruct (w_hook w);
    destruct (checkpoint_wanted kw && negb (w_save_ok w));
    destruct (existsb (Z.eqb (i v)) (update_cost_func_at kw));
    destruct below; destruct (w_break w); cbn in H;
    try discriminate; inversion H; subst; cbn; auto.
Qed.

Lemma go_loop_finishes (kw : go_kwargs F) (world : Z -> surroundings F)
    (base : Z) :
  (forall k xs, w_measured (world k) = Ok xs ->
                base + k + 1 <= Z.of_nat (List.length xs)) ->
  forall (fuel : nat) (v : loop_vars F) (s : experimenter F),
    (0 < fuel)%nat ->
    N kw - (base + i v) < Z.of_nat fuel ->
    base + i v <= n_measurements v ->
    fst (go_loop fuel kw world v s) <> Ok false.
Proof.
  intros Hw. induction fuel as [|fuel IH]; intros v s H0 Hf Hn; [lia|].
  cbn [go_loop].
  destruct (n_measurements v <? N kw) eqn:Hg; [|cbn; discriminate].
  apply Z.ltb_lt in Hg. unfold bind.
  destruct (go_body kw (world (i v)) v s) as [[[b v']|e] s1] eqn:Hb;
    [|cbn; discriminate].
  destruct b; cbn [fst]; [cbn; discriminate|].
  cbn [snd].
  destruct (pass_counts _ _ _ _ Hb) as (xs & Hx & Hn' & Hi').
  specialize (Hw _ _ Hx).
  apply IH; lia.
Qed.

Lemma go_not_out_of_fuel (kw : go_kwargs F) (world : Z -> surroundings F)
    (fuel : nat) (s : experimenter F) :
  (forall k xs, w_measured (world k) = Ok xs ->
                Z.of_nat (List.length (x_data s)) + k + 1
                <= Z.of_nat (List.length xs)) ->
  Z.max 0 (N kw - Z.of_nat (List.length (x_data s))) < Z.of_nat fuel ->
  fst (go fuel kw world s) <> Ok false.
Proof.
  intros Hw Hf. unfold go. unfold bind at 1, get.
  unfold bind at 1.
  match goal with
  | |- context [go_loop fuel kw world ?v0 s] =>
      pose proof (@go_loop_finishes kw world _ Hw fuel v0 s) as Hl;
        destruct (go_loop fuel kw world v0 s) as [[b|e] s1]
  end; [|cbn; discriminate].
  destruct b.
  - unfold bind. pose proof (kill_all_clients_ok s1) as Hk.
    destruct (kill_all_clients s1) as [[[]|e] s2]; cbn in Hk |- *;
      discriminate.
  - exfalso. cbn [i n_measurements fst] in Hl. apply Hl; [lia | lia | lia |].
    reflexivity.
Qed.

(** When every pass adds a measurement (the data set after pass [k] holds
    at least [k + 1] positions more than at the start), the loop is over
    after at most [N] minus the initial count passes: with that many passes
    allowed and one to spare, [go] ends in a result or in an exception. *)
Theorem go_terminates (kw : go_kwargs F) (world : Z -> surroundings F)
    (fuel : nat) (s : experimenter F) :
  (forall k xs, w_measured (world k) = Ok xs ->
                Z.of_nat (List.length (x_data s)) + k + 1
                <= Z.of_nat (List.length xs)) ->
  Z.max 0 (N kw - Z.of_nat (List.length (x_data s))) < Z.of_nat fuel ->
  fst (go fuel kw world s) = Ok true
  \/ exists e, fst (go fuel kw world s) = Raise e.
Proof.
  intros Hw Hf. pose proof (@go_not_out_of_fuel kw world fuel s Hw Hf) as H.
  destruct (fst (go fuel kw world s)) as [[|]|e].
  - left. reflexivity.
  - exfalso. apply H. reflexivity.
  - right. exists e. reflexivity.
Qed.

(** When the data set already holds [N] positions, [go] makes no pass: it
    asks for nothing, calls no instrument and only closes the clients. *)
Theorem go_with_enough_data (kw : go_kwargs F)
    (world : Z -> surroundings F) (fuel : nat) (s : experimenter F) :
  N kw <= Z.of_nat (List.length (x_data s)) ->
  go (S fuel) kw world s = (Ok true, snd (kill_all_clients s)).
Proof.
  intros H. apply Z.ltb_ge in H.
  unfold go, bind, get. cbn [go_loop n_measurements]. rewrite H.
  unfold ret. pose proof (kill_all_clients_ok s) as Hk.
  destruct (kill_all_clients s) as [[[]|e] s1]; cbn in Hk |- *;
    [reflexivity | discriminate].
Qed.

(** A pass ends in [break] exactly when the posterior error is below the
    threshold or the break condition holds; the retraining, the hook, the
    checkpoint and the cost update of that pass have run by then. *)
Theorem pass_breaks_iff (kw : go_kwargs F) (w : surroundings F)
    (v v' : loop_vars F) (s s' : experimenter F) (b : bool) :
  go_body kw w v s = (Ok (b, v'), s') ->
  (b = true <-> w_error_below w = Ok true \/ w_break w = true).
Proof.
  unfold go_body, after_ask, bind, lift, ret, raise, get.
  destruct (prepare_ask kw v s) as [[c|e] s1]; [|discriminate].
  destruct (emit (EvAsk c) s1) as [[[]|e] s2]; [|discriminate].
  destruct (w_ask w c) as [res|e]; [|discriminate].
  destruct (w_error_below w) as [below|e]; [|discriminate].
  destruct (adjust_tolerance kw (ask_fx res) (tol v)) as [t|e];
    [|discriminate].
  destruct (w_measured w) as [xs|e]; [|discriminate].
  destruct (set_x_data xs s2) as [[[]|e] s3]; [|discriminate].
  destruct (emit EvTell s3) as [[[]|e] s4]; [|discriminate].
  destruct (retrain kw (n_measurements v) s4) as [[[]|e] s5];
    [|discriminate].
  destruct (w_hook w); unfold emit, modify;
    destruct (checkpoint_wanted kw && negb (w_save_ok w));
    destruct (existsb (Z.eqb (i v)) (update_cost_func_at kw));
    destruct below; destruct (w_break w); cbn;
    intros H; try discriminate; inversion H; subst;
    intuition congruence.
Qed.

(** With an empty data set a pass stops at once with an [IndexError]: there
    is no last position to start from.  Nothing is asked or changed. *)
Theorem pass_on_empty_data (kw : go_kwargs F) (w : surroundings F)
    (v : loop_vars F) (s : experimenter F) :
  x_data s = [] ->
  go_body kw w v s = (Raise (IndexError "index out of range"), s).
Proof.
  intros H. unfold go_body, prepare_ask, bind, get, lift.
  rewrite H. reflexivity.
Qed.

(** The HGDL method is never replaced, however many measurements are to be
    suggested, and its [ask] always carries a client: the one of the
    experimenter if there is one, otherwise a new one that the experimenter
    keeps. *)
Theorem hgdl_ask_carries_client (kw : go_kwargs F) (v : loop_vars F)
    (s s' : experimenter F) (c : ask_call F) :
  acq_func_opt_setting kw (i v) = "hgdl" ->
  prepare_ask kw v s = (Ok c, s') ->
  ask_method c = "hgdl"
  /\ ask_dask_client c = acq_func_opt_dask_client s'
  /\ match acq_func_opt_dask_client s with
     | Some c0 => ask_dask_client c = Some c0 /\ s' = s
     | None => ask_dask_client c = Some (fresh s)
               /\ trace s' = (trace s ++ [EvNewClient (fresh s)])%list
     end.
Proof.
  intros Hm. unfold prepare_ask, iteration_method. rewrite Hm.
  change (String.eqb "hgdl" "hgdl") with true.
  rewrite andb_false_r. cbv iota.
  unfold bind, get, lift, ret.
  destruct (list_get (x_data s) (-1)) as [pos|e]; [|discriminate].
  destruct s as [fl o tc ac x live f tr]. cbn.
  destruct ac as [c0|]; cbn; intros H; inversion H; subst; cbn; auto.
Qed.

End LoopEdges.

(** * The constructors *)

Section ConstructionFacts.

Import Experimenter Construction.

Context {F : Type}.



(** After [AutonomousExperimenterFvGP.__init__], failed or not, both clients
    exist, the one for the acquisition optimization being the training
    client when none was given; [kill_all_clients] then closes both and
    logs no error. *)
Theorem fvgp_has_both_clients (a : init_args F) :
  exists c c',
    training_dask_client (snd (construct_fvgp a (blank a))) = Some c
    /\ acq_func_opt_dask_client (snd (construct_fvgp a (blank a))) = Some c'
    /\ (acq_client a = None -> c' = c)
    /\ trace (snd (kill_all_clients (snd (construct_fvgp a (blank a)))))
       = (trace (snd (construct_fvgp a (blank a)))
          ++ [EvCloseClient c; EvCloseClient c'])%list.
Proof.
  destruct a as [size x y d ins tc ac ex].
  unfold construct_fvgp, blank, init. cbn.
  destruct tc as [c|]; destruct ac as [c'|]; cbn;
    destruct (choose_source size x y d ins); cbn;
    do 2 eexists; repeat split; try reflexivity;
    intros H; try discriminate; reflexivity.
Qed.

End ConstructionFacts.

(** * The further statements at concrete inputs *)

Section MoreExamples.

Import Rational Fixture Experimenter Inputs Construction.

Lemma cost_not_callable_witness :
  @PyDict float [] <> PyNone
  /\ evaluate_acquisition_function half gp variance (Some start)
       (Data (PyInt 1)) (Data (PyDict [])) PyNone None (PyDict [])
     = Raise (TypeError "object is not callable").
Proof.
  assert (H : @PyDict float [] <> PyNone) by discriminate.
  split; [exact H|].
  exact (@cost_not_callable float numpy half gp variance start
           (Data (PyInt 1)) (PyDict []) PyNone None (PyDict []) H).
Defined.

Lemma x_out_knows_four_kinds_witness :
  ~ In "ucb" kinds_x_out
  /\ evaluate_gp_acquisition_function (Ar [half]) (AcqKind "ucb") gp
       (Data (PyInt 1)) (Some (Ar [num 0])) (PyDict [])
     = Raise no_valid_string.
Proof.
  assert (H : ~ In "ucb" kinds_x_out) by (cbn; intuition discriminate).
  split; [exact H|].
  exact (@x_out_knows_four_kinds float numpy "ucb" (Ar [half]) (Ar [num 0])
           gp (Data (PyInt 1)) (PyDict []) H).
Defined.

Lemma global_returns_solver_point_witness :
  candidate_set (defaults "global") = []
  /\ optimization_method (defaults "global") = "global"
  /\ @devo float (solvers minimize_gives_up)
       (fun x => acq_function_vectorization_wrapper x
                   (acquisition_objective gp variance (Some start) 1
                      (defaults "global"))
                   (vectorized (defaults "global")))
       unit_box (optimization_tol (defaults "global"))
       (optimization_x0 (defaults "global"))
       (optimization_max_iter (defaults "global"))
       (optimization_pop_size (defaults "global")) (info (defaults "global"))
       (constraints (defaults "global")) (vectorized (defaults "global"))
     = Ok {| res_x := Ar [num 0]; res_fun := num (-4); res_success := true |}
  /\ dispatch minimize_gives_up variance (Some start) (defaults "global")
     = (Ok (Ar [Ar [num 0]], Ar [num (-4)], None), []).
Proof.
  split; [reflexivity|]. split; [reflexivity|].
  assert (H : @devo float (solvers minimize_gives_up)
       (fun x => acq_function_vectorization_wrapper x
                   (acquisition_objective gp variance (Some start) 1
                      (defaults "global"))
                   (vectorized (defaults "global")))
       unit_box (optimization_tol (defaults "global"))
       (optimization_x0 (defaults "global"))
       (optimization_max_iter (defaults "global"))
       (optimization_pop_size (defaults "global")) (info (defaults "global"))
       (constraints (defaults "global")) (vectorized (defaults "global"))
     = Ok {| res_x := Ar [num 0]; res_fun := num (-4); res_success := true |})
    by (vm_compute; reflexivity).
  split; [exact H|].
  exact (@global_returns_solver_point float numpy (solvers minimize_gives_up)
           gp variance (Some start) 1 unit_box (defaults "global") []
           _ eq_refl eq_refl H).
Defined.

Lemma hgdl_keeps_first_optima_witness :
  candidate_set (defaults "hgdl") = []
  /\ optimization_method (defaults "hgdl") = "hgdl"
  /\ @hgdl_start float numpy (solvers_finding three_optima)
       (acquisition_objective gp variance (Some start) 2 (defaults "hgdl"))
       (acquisition_gradient gp variance (Some start) 2 (defaults "hgdl"))
       unit_box (defaults "hgdl") []
     = (Ok (hgdl_found three_optima), [])
  /\ hgdl_get_final (hgdl_found three_optima) = Ok three_optima
  /\ hgdl_cancel_tasks (hgdl_found three_optima) = Ok tt
  /\ @find_acquisition_function_maxima float numpy
       (solvers_finding three_optima) gp variance (Some start) 2 unit_box
       (defaults "hgdl") []
     = shape_check
         (Ar (map (@entry_x float)
                (firstn (kept (Z.of_nat (List.length three_optima)) 2)
                   three_optima)))
         (Ar (map (@entry_fx float)
                (firstn (kept (Z.of_nat (List.length three_optima)) 2)
                   three_optima)))
         (Some (hgdl_found three_optima)) []
  /\ (0 <= 2 ->
      Z.of_nat (List.length
                  (firstn (kept (Z.of_nat (List.length three_optima)) 2)
                     three_optima)) <= 2).
Proof.
  split; [reflexivity|]. split; [reflexivity|].
  split; [reflexivity|]. split; [reflexivity|]. split; [reflexivity|].
  exact (@hgdl_keeps_first_optima float numpy (solvers_finding three_optima)
           gp variance (Some start) 2 unit_box (defaults "hgdl") [] []
           (hgdl_found three_optima) three_optima
           eq_refl eq_refl eq_refl eq_refl eq_refl).
Defined.

Lemma hgdl_without_optima_aborts_witness :
  candidate_set (defaults "hgdl") = []
  /\ optimization_method (defaults "hgdl") = "hgdl"
  /\ @hgdl_start float numpy (solvers_finding [])
       (acquisition_objective gp variance (Some start) 2 (defaults "hgdl"))
       (acquisition_gradient gp variance (Some start) 2 (defaults "hgdl"))
       unit_box (defaults "hgdl") []
     = (Ok (hgdl_found []), [])
  /\ hgdl_get_final (hgdl_found []) = Ok []
  /\ hgdl_cancel_tasks (hgdl_found []) = Ok tt
  /\ (@nil (hgdl_entry float) = [] \/ 2 = 0)
  /\ @find_acquisition_function_maxima float numpy (solvers_finding [])
       gp variance (Some start) 2 unit_box (defaults "hgdl") []
     = (Raise (PyException shape_message),
        ([] ++ [Error "f(x): "; Error "x: "])%list).
Proof.
  split; [reflexivity|]. split; [reflexivity|].
  split; [reflexivity|]. split; [reflexivity|]. split; [reflexivity|].
  split; [left; reflexivity|].
  exact (@hgdl_without_optima_aborts float numpy (solvers_finding [])
           gp variance (Some start) 2 unit_box (defaults "hgdl") [] []
           (hgdl_found []) [] eq_refl eq_refl eq_refl eq_refl eq_refl
           (or_introl eq_refl)).
Defined.

Lemma local_x0_given_witness :
  (ndim (Ar [half; start]) = 1
   \/ (Ar [half; start] = Ar (half :: [start])
       /\ ndim (Ar [half; start]) = 2))
  /\ exists x0,
       @local_x0 float numpy (solvers minimize_gives_up) unit_box
         (Some (Ar [half; start])) = Ok x0
       /\ ndim x0 = 1
       /\ (ndim (Ar [half; start]) = 1 -> x0 = Ar [half; start])
       /\ (ndim (Ar [half; start]) = 2 ->
           x0 = half /\ nd_get (Ar [half; start]) 0 = Ok x0).
Proof.
  split; [right; split; reflexivity|].
  exact (@local_x0_given float numpy (solvers minimize_gives_up) unit_box
           (Ar [half; start]) half [start]
           (or_intror (conj eq_refl eq_refl))).
Defined.

Lemma local_success_returns_solver_point_witness :
  candidate_set (with_x0 half (defaults "local")) = []
  /\ optimization_method (with_x0 half (defaults "local")) = "local"
  /\ @local_x0 float numpy (solvers minimize_converges) unit_box
       (optimization_x0 (with_x0 half (defaults "local"))) = Ok half
  /\ @minimize float (solvers minimize_converges)
       (acquisition_objective gp variance (Some start) 1 (with_x0 half (defaults "local"))) half
       (acquisition_gradient gp variance (Some start) 1 (with_x0 half (defaults "local"))) unit_box
       (constraints (with_x0 half (defaults "local"))) (optimization_tol (with_x0 half (defaults "local")))
       (optimization_max_iter (with_x0 half (defaults "local")))
     = Ok {| res_x := half; res_fun := Ar [num (-4)]; res_success := true |}
  /\ res_success {| res_x := half; res_fun := Ar [num (-4)]; res_success := true |} = true
  /\ ndim (res_x {| res_x := half; res_fun := Ar [num (-4)]; res_success := true |}) = 1
  /\ (ndim (res_fun {| res_x := half; res_fun := Ar [num (-4)]; res_success := true |}) = 0
      \/ ndim (res_fun {| res_x := half; res_fun := Ar [num (-4)]; res_success := true |}) = 1)
  /\ dispatch minimize_converges variance (Some start) (with_x0 half (defaults "local"))
     = (Ok (Ar [half], Ar [num (-4)], None), []).
Proof.
  assert (Hm : @minimize float (solvers minimize_converges)
       (acquisition_objective gp variance (Some start) 1 (with_x0 half (defaults "local"))) half
       (acquisition_gradient gp variance (Some start) 1 (with_x0 half (defaults "local"))) unit_box
       (constraints (with_x0 half (defaults "local"))) (optimization_tol (with_x0 half (defaults "local")))
       (optimization_max_iter (with_x0 half (defaults "local")))
     = Ok {| res_x := half; res_fun := Ar [num (-4)]; res_success := true |}) by (vm_compute; reflexivity).
  split; [reflexivity|]. split; [reflexivity|]. split; [reflexivity|].
  split; [exact Hm|]. split; [reflexivity|]. split; [reflexivity|].
  split; [right; reflexivity|].
  exact (@local_success_returns_solver_point float numpy
           (solvers minimize_converges) gp variance (Some start) 1 unit_box
           (with_x0 half (defaults "local")) [] half _ eq_refl eq_refl eq_refl Hm eq_refl eq_refl
           (or_intror eq_refl)).
Defined.

Lemma local_failure_returns_start_witness :
  candidate_set (with_x0 half (defaults "local")) = []
  /\ optimization_method (with_x0 half (defaults "local")) = "local"
  /\ @local_x0 float numpy (solvers minimize_gives_up) unit_box
       (optimization_x0 (with_x0 half (defaults "local"))) = Ok half
  /\ @minimize float (solvers minimize_gives_up)
       (acquisition_objective gp variance (Some start) 1 (with_x0 half (defaults "local"))) half
       (acquisition_gradient gp variance (Some start) 1 (with_x0 half (defaults "local"))) unit_box
       (constraints (with_x0 half (defaults "local"))) (optimization_tol (with_x0 half (defaults "local")))
       (optimization_max_iter (with_x0 half (defaults "local")))
     = Ok {| res_x := half; res_fun := Ar [num (-4)]; res_success := false |}
  /\ res_success {| res_x := half; res_fun := Ar [num (-4)]; res_success := false |} = false
  /\ ndim half = 1
  /\ evaluate_acquisition_function half gp variance (Some start)
       (cost_function (with_x0 half (defaults "local"))) (Data (cost_function_parameters (with_x0 half (defaults "local"))))
       PyNone None PyNone = Ok (Ar [num (-4)])
  /\ (ndim (Ar [num (-4)]) = 0 \/ ndim (Ar [num (-4)]) = 1)
  /\ dispatch minimize_gives_up variance (Some start) (with_x0 half (defaults "local"))
     = (Ok (Ar [half], Ar [num (-4)], None),
        ([] ++ [Warning local_warning])%list).
Proof.
  assert (Hm : @minimize float (solvers minimize_gives_up)
       (acquisition_objective gp variance (Some start) 1 (with_x0 half (defaults "local"))) half
       (acquisition_gradient gp variance (Some start) 1 (with_x0 half (defaults "local"))) unit_box
       (constraints (with_x0 half (defaults "local"))) (optimization_tol (with_x0 half (defaults "local")))
       (optimization_max_iter (with_x0 half (defaults "local")))
     = Ok {| res_x := half; res_fun := Ar [num (-4)]; res_success := false |}) by (vm_compute; reflexivity).
  assert (He : evaluate_acquisition_function half gp variance (Some start)
       (cost_function (with_x0 half (defaults "local"))) (Data (cost_function_parameters (with_x0 half (defaults "local"))))
       PyNone None PyNone = Ok (Ar [num (-4)])) by (vm_compute; reflexivity).
  split; [reflexivity|]. split; [reflexivity|]. split; [reflexivity|].
  split; [exact Hm|]. split; [reflexivity|]. split; [reflexivity|].
  split; [exact He|]. split; [right; reflexivity|].
  exact (@local_failure_returns_start float numpy
           (solvers minimize_gives_up) gp variance (Some start) 1 unit_box
           (with_x0 half (defaults "local")) [] half (Ar [num (-4)]) _ eq_refl eq_refl eq_refl Hm
           eq_refl eq_refl He (or_intror eq_refl)).
Defined.

Lemma local_failure_loses_args_witness :
  candidate_set (with_args window (with_x0 half (defaults "local"))) = []
  /\ optimization_method (with_args window (with_x0 half (defaults "local"))) = "local"
  /\ @local_x0 float numpy (solvers minimize_gives_up) unit_box
       (optimization_x0 (with_args window (with_x0 half (defaults "local")))) = Ok half
  /\ @minimize float (solvers minimize_gives_up)
       (acquisition_objective gp (AcqKind "target probability") (Some start) 1 (with_args window (with_x0 half (defaults "local")))) half
       (acquisition_gradient gp (AcqKind "target probability") (Some start) 1 (with_args window (with_x0 half (defaults "local")))) unit_box
       (constraints (with_args window (with_x0 half (defaults "local")))) (optimization_tol (with_args window (with_x0 half (defaults "local"))))
       (optimization_max_iter (with_args window (with_x0 half (defaults "local"))))
     = Ok {| res_x := half; res_fun := Ar [Sc None]; res_success := false |}
  /\ res_success {| res_x := half; res_fun := Ar [Sc None]; res_success := false |} = false
  /\ (Some start = None
      \/ cost_function_parameters (with_args window (with_x0 half (defaults "local"))) = PyNone)
  /\ dispatch minimize_gives_up (AcqKind "target probability") (Some start) (with_args window (with_x0 half (defaults "local")))
     = (Raise (TypeError "object is not subscriptable"),
        ([] ++ [Warning local_warning])%list).
Proof.
  assert (Hm : @minimize float (solvers minimize_gives_up)
       (acquisition_objective gp (AcqKind "target probability") (Some start) 1 (with_args window (with_x0 half (defaults "local")))) half
       (acquisition_gradient gp (AcqKind "target probability") (Some start) 1 (with_args window (with_x0 half (defaults "local")))) unit_box
       (constraints (with_args window (with_x0 half (defaults "local")))) (optimization_tol (with_args window (with_x0 half (defaults "local"))))
       (optimization_max_iter (with_args window (with_x0 half (defaults "local"))))
     = Ok {| res_x := half; res_fun := Ar [Sc None]; res_success := false |}) by (vm_compute; reflexivity).
  split; [reflexivity|]. split; [reflexivity|]. split; [reflexivity|].
  split; [exact Hm|]. split; [reflexivity|]. split; [right; reflexivity|].
  exact (@local_failure_loses_args float numpy
           (solvers minimize_gives_up) gp (Some start) 1 unit_box
           (with_args window (with_x0 half (defaults "local"))) [] half _ eq_refl eq_refl eq_refl Hm eq_refl
           (or_intror eq_refl)).
Defined.

Lemma kill_training_idempotent_witness :
  kill_training training = (Ok tt, snd (kill_training training))
  /\ kill_training (snd (kill_training training))
     = (Ok tt, snd (kill_training training)).
Proof.
  assert (H : kill_training training = (Ok tt, snd (kill_training training)))
    by (vm_compute; reflexivity).
  split; [exact H|].
  exact (@kill_training_idempotent float training _ H).
Defined.

Lemma training_calls_never_raise_witness :
  flag_has_handle (fresh_experimenter [start])
  /\ exists s',
       run_calls twice (fresh_experimenter [start]) = (Ok tt, s')
       /\ flag_has_handle s'.
Proof.
  assert (H : flag_has_handle (fresh_experimenter [start]))
    by (unfold flag_has_handle; cbn; discriminate).
  split; [exact H|].
  exact (@training_calls_never_raise float twice
           (fresh_experimenter [start]) H).
Defined.

Lemma kill_training_stops_stored_only_witness :
  handles_below_fresh training
  /\ exists s1 s2,
       train_async 10 None training = (Ok tt, s1)
       /\ kill_training s1 = (Ok tt, s2)
       /\ live_trainings s2 = live_trainings training
       /\ async_train_in_progress s2 = false.
Proof.
  assert (H : handles_below_fresh training).
  { unfold handles_below_fresh. cbn. intros h [<-|[]]. lia. }
  split; [exact H|].
  exact (@kill_training_stops_stored_only float 10 None training H).
Defined.

Lemma retrain_without_new_data_polls_witness :
  Z.of_nat (List.length (x_data (fresh_experimenter twenty))) <= 20
  /\ retrain go_async 20 (fresh_experimenter twenty)
     = update_hps (fresh_experimenter twenty).
Proof.
  assert (H : Z.of_nat (List.length (x_data (fresh_experimenter twenty)))
              <= 20) by (cbn; lia).
  split; [exact H|].
  exact (@retrain_without_new_data_polls float go_async 20
           (fresh_experimenter twenty) H).
Defined.

Lemma go_terminates_witness :
  (forall k xs, w_measured (growing k) = Ok xs ->
                Z.of_nat (List.length (x_data (fresh_experimenter [start])))
                + k + 1 <= Z.of_nat (List.length xs))
  /\ Z.max 0 (N go_five
              - Z.of_nat (List.length
                            (x_data (fresh_experimenter [start]))))
     < Z.of_nat 5
  /\ (fst (go 5 go_five growing (fresh_experimenter [start])) = Ok true
      \/ exists e,
           fst (go 5 go_five growing (fresh_experimenter [start]))
           = Raise e).
Proof.
  assert (H : forall k xs, w_measured (growing k) = Ok xs ->
                Z.of_nat (List.length (x_data (fresh_experimenter [start])))
                + k + 1 <= Z.of_nat (List.length xs)).
  { intros k xs E. unfold growing, answers in E. cbn [w_measured] in E.
    inversion E. rewrite repeat_length.
    change (Z.of_nat (List.length (x_data (fresh_experimenter [start]))))
      with 1.
    lia. }
  assert (Hf : Z.max 0 (N go_five
              - Z.of_nat (List.length
                            (x_data (fresh_experimenter [start]))))
     < Z.of_nat 5) by (cbn; lia).
  split; [exact H|]. split; [exact Hf|].
  exact (@go_terminates float numpy go_five growing 5
           (fresh_experimenter [start]) H Hf).
Defined.

Lemma go_with_enough_data_witness :
  N go_five <= Z.of_nat (List.length (x_data (fresh_experimenter twenty)))
  /\ go 1 go_five growing (fresh_experimenter twenty)
     = (Ok true, snd (kill_all_clients (fresh_experimenter twenty))).
Proof.
  assert (H : N go_five
              <= Z.of_nat (List.length (x_data (fresh_experimenter twenty))))
    by (cbn; lia).
  split; [exact H|].
  exact (@go_with_enough_data float numpy go_five growing 0
           (fresh_experimenter twenty) H).
Defined.

Lemma pass_breaks_iff_witness :
  go_body go_five converged first_pass (fresh_experimenter [start])
  = (Ok (true, {| i := 0; n_measurements := 1; tol := num (1 # 2) |}),
     snd (go_body go_five converged first_pass (fresh_experimenter [start])))
  /\ (true = true
      <-> w_error_below converged = Ok true \/ w_break converged = true).
Proof.
  assert (H : go_body go_five converged first_pass
                (fresh_experimenter [start])
  = (Ok (true, {| i := 0; n_measurements := 1; tol := num (1 # 2) |}),
     snd (go_body go_five converged first_pass (fresh_experimenter [start]))))
    by (vm_compute; reflexivity).
  split; [exact H|].
  exact (@pass_breaks_iff float numpy go_five converged first_pass _
           (fresh_experimenter [start]) _ true H).
Defined.

Lemma pass_on_empty_data_witness :
  x_data (fresh_experimenter []) = []
  /\ go_body go_five converged first_pass (fresh_experimenter [])
     = (Raise (IndexError "index out of range"), fresh_experimenter []).
Proof.
  split; [reflexivity|].
  exact (@pass_on_empty_data float numpy go_five converged first_pass
           (fresh_experimenter []) eq_refl).
Defined.

Lemma hgdl_ask_carries_client_witness :
  acq_func_opt_setting go_hgdl (i first_pass) = "hgdl"
  /\ prepare_ask go_hgdl first_pass (fresh_experimenter [start])
     = (Ok {| ask_position := start; ask_n := 2; ask_method := "hgdl";
              ask_pop_size := 20; ask_max_iter := 20;
              ask_tol := num (1 # 1000000);
              ask_dask_client := Some 0%nat |},
        snd (prepare_ask go_hgdl first_pass (fresh_experimenter [start])))
  /\ acq_func_opt_dask_client
       (snd (prepare_ask go_hgdl first_pass (fresh_experimenter [start])))
     = Some 0%nat
  /\ trace (snd (prepare_ask go_hgdl first_pass (fresh_experimenter [start])))
     = [EvNewClient 0%nat].
Proof.
  assert (H : prepare_ask go_hgdl first_pass (fresh_experimenter [start])
     = (Ok {| ask_position := start; ask_n := 2; ask_method := "hgdl";
              ask_pop_size := 20; ask_max_iter := 20;
              ask_tol := num (1 # 1000000);
              ask_dask_client := Some 0%nat |},
        snd (prepare_ask go_hgdl first_pass (fresh_experimenter [start]))))
    by (vm_compute; reflexivity).
  split; [reflexivity|]. split; [exact H|].
  destruct (@hgdl_ask_carries_client float go_hgdl first_pass
              (fresh_experimenter [start]) _ _ eq_refl H)
    as (_ & Hc & _ & Ht).
  split; [symmetry; exact Hc | exact Ht].
Defined.


End MoreExamples.
